(** * Download-task orchestration of app.py: a shallow embedding

    The Flask backend keeps one dictionary, [download_tasks], from task
    identifiers to task records (Python dicts), guarded by [tasks_lock].
    Three kinds of code touch it: the progress hook that yt-dlp calls
    ([ProgressHook.__call__]), the background runner ([run_download_task])
    and the request handlers ([start_download_route],
    [stream_progress_route], [get_file]).

    Every [with tasks_lock:] block is one atomic step on the store, so the
    concurrent program is modelled by the sequence of stores those steps
    produce.  Python values are an inductive type, Python dicts are
    insertion-ordered association lists, exceptions are an error monad, and
    the hook, which mutates the task record in place and may raise half-way,
    runs in a state-and-error monad whose state survives the exception.
    Python floats are IEEE binary64 values of the Standard Library's
    [SpecFloat]. *)

From Stdlib Require Import ZArith String Ascii List SpecFloat Lia.
From stdpp Require Import gmap strings pretty.

#[local] Open Scope string_scope.
#[local] Open Scope Z_scope.
#[local] Set Warnings "-register-all".

(** ** Python values and exceptions *)

Inductive pyval : Type :=
| PNone
| PBool (b : bool)
| PInt (z : Z)
| PFloat (f : spec_float)
| PStr (s : string)
| PList (l : list pyval)
| PDict (kv : list (string * pyval)).

(** A Python dict with string keys, in insertion order. *)
Abbreviation dict := (list (string * pyval)).

Inductive exn : Type :=
| KeyError (k : string)
| TypeError
| AttributeError
| ZeroDivisionError
| OverflowError
| FileNotFoundError
| DownloadError (msg : string)
| HTTPException (code : nat) (description : string)
| RuntimeError.

Inductive result (A : Type) : Type :=
| Ok (a : A)
| Raise (e : exn).
Arguments Ok {A} a.
Arguments Raise {A} e.

#[global] Instance result_ret : MRet result := @Ok.
#[global] Instance result_bind : MBind result := fun A B k m =>
  match m with
  | Ok a => k a
  | Raise e => Raise e
  end.

Definition raises {A} (r : result A) : bool :=
  match r with Ok _ => false | Raise _ => true end.

(** ** Dict operations *)

(** [d.get(k)]: the first binding of [k]. *)
Fixpoint dict_lookup (d : dict) (k : string) : option pyval :=
  match d with
  | [] => None
  | (k', v) :: d' => if String.eqb k k' then Some v else dict_lookup d' k
  end.

(** [d.get(k, dflt)] *)
Definition dict_get (d : dict) (k : string) (dflt : pyval) : pyval :=
  match dict_lookup d k with Some v => v | None => dflt end.

(** [d[k]] *)
Definition dict_getitem (d : dict) (k : string) : result pyval :=
  match dict_lookup d k with Some v => Ok v | None => Raise (KeyError k) end.

(** [d[k] = v]: an existing key keeps its position, a new one goes last. *)
Fixpoint dict_set (d : dict) (k : string) (v : pyval) : dict :=
  match d with
  | [] => [(k, v)]
  | (k', v') :: d' =>
      if String.eqb k k' then (k', v) :: d' else (k', v') :: dict_set d' k v
  end.

(** [k in d] *)
Definition dict_mem (d : dict) (k : string) : bool :=
  match dict_lookup d k with Some _ => true | None => false end.

(** [o[k] = v] on an arbitrary object: only dicts accept a string key. *)
Definition py_setitem (o : pyval) (k : string) (v : pyval) : result pyval :=
  match o with
  | PDict kv => Ok (PDict (dict_set kv k v))
  | _ => Raise TypeError
  end.

(** ** Truth, equality with a string literal, [or] *)

Definition float_is_zero (f : spec_float) : bool :=
  match f with S754_zero _ => true | _ => false end.

Definition truthy (v : pyval) : bool :=
  match v with
  | PNone => false
  | PBool b => b
  | PInt z => negb (z =? 0)
  | PFloat f => negb (float_is_zero f)
  | PStr s => negb (String.eqb s "")
  | PList l => match l with [] => false | _ => true end
  | PDict kv => match kv with [] => false | _ => true end
  end.

(** [a or b] *)
Definition py_or (a b : pyval) : pyval := if truthy a then a else b.

(** [v == 'lit'] *)
Definition py_eq_str (v : pyval) (s : string) : bool :=
  match v with PStr s' => String.eqb s' s | _ => false end.

(** [v in ['finished', 'error']] *)
Definition in_final (v : pyval) : bool :=
  py_eq_str v "finished" || py_eq_str v "error".

(** ** Numbers: Python ints are [Z], floats are binary64 *)

Definition prec : Z := 53.
Definition emax : Z := 1024.

Definition float_is_inf (f : spec_float) : bool :=
  match f with S754_infinity _ => true | _ => false end.

(** An integer as an unrounded float datum, numerator or denominator of a
    correctly rounded quotient. *)
Definition raw_of_Z (z : Z) : spec_float :=
  match z with
  | Z0 => S754_zero false
  | Zpos p => S754_finite false p 0
  | Zneg p => S754_finite true p 0
  end.

(** Magnitudes from [2^1024 - 2^970] on round to infinity: there Python
    raises [OverflowError], both for [float(z)] and for int/int. *)
Definition float_overflow_bound : Z := 2 ^ 1024 - 2 ^ 970.

(** [float(z)]: round to nearest even, [OverflowError] beyond the range. *)
Definition int_to_float (z : Z) : result spec_float :=
  if float_overflow_bound <=? Z.abs z then Raise OverflowError
  else Ok (binary_normalize prec emax z 0 false).

Definition as_number (v : pyval) : option (Z + spec_float) :=
  match v with
  | PBool b => Some (inl (Z.b2z b))
  | PInt z => Some (inl z)
  | PFloat f => Some (inr f)
  | _ => None
  end.

Definition to_float (n : Z + spec_float) : result spec_float :=
  match n with inl z => int_to_float z | inr f => Ok f end.

(** [n == 0] on a number. *)
Definition number_is_zero (n : Z + spec_float) : bool :=
  match n with inl z => z =? 0 | inr f => float_is_zero f end.

(** [a / b]: int/int is the correctly rounded exact quotient; with a float
    operand both sides are converted first, and a zero divisor raises. *)
Definition py_truediv (a b : pyval) : result pyval :=
  match as_number a, as_number b with
  | Some (inl x), Some (inl y) =>
      if y =? 0 then Raise ZeroDivisionError
      else if float_overflow_bound * Z.abs y <=? Z.abs x then Raise OverflowError
      else Ok (PFloat (SFdiv prec emax (raw_of_Z x) (raw_of_Z y)))
  | Some x, Some y =>
      fx ← to_float x;
      fy ← to_float y;
      if number_is_zero y then Raise ZeroDivisionError
      else Ok (PFloat (SFdiv prec emax fx fy))
  | _, _ => Raise TypeError
  end.

(** [a * b] on numbers (the hook multiplies a quotient, always a float, by
    the int 100; sequence repetition is not reached). *)
Definition py_mul (a b : pyval) : result pyval :=
  match as_number a, as_number b with
  | Some (inl x), Some (inl y) => Ok (PInt (x * y))
  | Some x, Some y =>
      fx ← to_float x;
      fy ← to_float y;
      Ok (PFloat (SFmul prec emax fx fy))
  | _, _ => Raise TypeError
  end.

(** [v > 0] *)
Definition py_gt0 (v : pyval) : result bool :=
  match as_number v with
  | Some (inl z) => Ok (0 <? z)
  | Some (inr f) => Ok (SFltb (S754_zero false) f)
  | None => Raise TypeError
  end.

(** Nearest integer to [a / b], ties to even, for [0 <= a] and [0 < b]. *)
Definition div_half_even (a b : Z) : Z :=
  let q := a / b in
  let r := a mod b in
  match 2 * r ?= b with
  | Lt => q
  | Gt => q + 1
  | Eq => if Z.even q then q else q + 1
  end.

(** [round(f, 1)] on a float: the decimal with one fractional digit nearest
    to the exact value of [f] (ties to even), read back as the nearest
    float; infinities and nan are returned as they are. *)
Definition float_tenths (m : positive) (e : Z) : Z :=
  if 0 <=? e then 10 * Zpos m * 2 ^ e
  else div_half_even (10 * Zpos m) (2 ^ (- e)).

Definition float_round1 (f : spec_float) : spec_float :=
  match f with
  | S754_finite s m e =>
      let num :=
        match float_tenths m e with
        | Zpos p => S754_finite s p 0
        | _ => S754_zero s
        end in
      SFdiv prec emax num (raw_of_Z 10)
  | _ => f
  end.

(** [round(v, 1)]: an int (or bool) gives an int, a float a float. *)
Definition py_round1 (v : pyval) : result pyval :=
  match as_number v with
  | Some (inl z) => Ok (PInt z)
  | Some (inr f) => Ok (PFloat (float_round1 f))
  | None => Raise TypeError
  end.

(** The float nearest to [n / d], to write float constants. *)
Definition float_of_ratio (n d : Z) : spec_float :=
  SFdiv prec emax (raw_of_Z n) (raw_of_Z d).

(** ** Paths ([os.path], POSIX flavour) *)

Fixpoint has_slash (s : string) : bool :=
  match s with
  | EmptyString => false
  | String c r => Ascii.eqb c "/" || has_slash r
  end.

(** [os.path.basename]: what follows the last slash. *)
Fixpoint basename (s : string) : string :=
  match s with
  | EmptyString => EmptyString
  | String c r => if Ascii.eqb c "/" || has_slash r then basename r else s
  end.

(** [os.path.basename(v)] on an arbitrary value: only a str is a path. *)
Definition py_basename (v : pyval) : result string :=
  match v with
  | PStr s => Ok (basename s)
  | _ => Raise TypeError
  end.

(** ** Code that mutates one task record and may raise

    The state is the record [task_info]; it is the very object stored in
    [download_tasks], so what was written before an exception stays. *)

Definition prog (A : Type) : Type := dict -> dict * result A.

#[global] Instance prog_ret : MRet prog := fun A a s => (s, Ok a).
#[global] Instance prog_bind : MBind prog := fun A B k m s =>
  match m s with
  | (s', Ok a) => k a s'
  | (s', Raise e) => (s', Raise e)
  end.

Definition plift {A} (r : result A) : prog A := fun s => (s, r).

(** [task_info[k]] *)
Definition task_getitem (k : string) : prog pyval :=
  fun s => (s, dict_getitem s k).

(** [task_info.get(k, dflt)] *)
Definition task_get (k : string) (dflt : pyval) : prog pyval :=
  fun s => (s, Ok (dict_get s k dflt)).

(** [task_info[k] = v] *)
Definition task_setitem (k : string) (v : pyval) : prog unit :=
  fun s => (dict_set s k v, Ok tt).

(** ** The task store and the progress hook *)

Abbreviation store := (gmap string dict).

Definition hook_error_message : string := "فشل خطاف التقدم في yt-dlp.".

(** The progress record of a ['downloading'] callback (lines 63-73). *)
Definition downloading_progress (d : dict) : result pyval :=
  let total_bytes :=
    py_or (py_or (dict_get d "total_bytes" PNone)
                 (dict_get d "total_bytes_estimate" PNone)) (PInt 0) in
  let downloaded_bytes := dict_get d "downloaded_bytes" (PInt 0) in
  positive ← py_gt0 total_bytes;
  percentage ←
    (if positive : bool
     then q ← py_truediv downloaded_bytes total_bytes; py_mul q (PInt 100)
     else Ok (PInt 0));
  rounded ← py_round1 percentage;
  Ok (PDict [ ("percentage", rounded);
              ("speed", dict_get d "_speed_str" (PStr "N/A"));
              ("eta", dict_get d "_eta_str" (PStr "N/A"));
              ("total_bytes", total_bytes);
              ("total_bytes_string", dict_get d "_total_bytes_str" (PStr "N/A"));
              ("downloaded_bytes", downloaded_bytes) ]).

(** The body of [ProgressHook.__call__] once [task_info] is at hand
    (lines 54-91).  In the ['finished'] branch the source mutates the
    progress dict it has just read from the task; nothing can raise between
    that mutation and the assignment of line 91, so the two are one write. *)
Definition hook_body (d : dict) : prog unit :=
  status ← task_getitem "status";
  if in_final status then mret tt
  else
    current_status ← plift (dict_getitem d "status");
    new_progress_data ← task_get "progress" (PDict []);
    new_progress_data ←
      (if py_eq_str current_status "downloading" then
         task_setitem "status" (PStr "downloading");;
         plift (downloading_progress d)
       else if py_eq_str current_status "finished" then
         recorded ← task_get "filename" PNone;
         let final_filename := py_or (dict_get d "filename" PNone) recorded in
         task_setitem "status" (PStr "finished");;
         task_setitem "filename" final_filename;;
         (if truthy final_filename then
            b ← plift (py_basename final_filename);
            task_setitem "download_url" (PStr ("/api/files/" +:+ b))
          else mret tt);;
         progress ← task_get "progress" (PDict []);
         plift (py_setitem progress "percentage" (PInt 100))
       else if py_eq_str current_status "error" then
         task_setitem "status" (PStr "error");;
         task_setitem "error_message" (PStr hook_error_message);;
         mret new_progress_data
       else mret new_progress_data);
    task_setitem "progress" new_progress_data.

(** [ProgressHook(task_id)(d)] under the lock: the new store and how the
    call ends for the worker that made it. *)
Definition ProgressHook_call (task_id : string) (d : dict) (tasks : store)
  : store * result unit :=
  match tasks !! task_id with
  | None => (tasks, Ok tt)
  | Some task_info =>
      let '(task_info', r) := hook_body d task_info in
      (<[task_id := task_info']> tasks, r)
  end.

(** The record [start_download_route] seeds (lines 219-223). *)
Definition initial_progress : pyval :=
  PDict [ ("percentage", PInt 0); ("speed", PStr ""); ("eta", PStr "");
          ("total_bytes", PInt 0); ("total_bytes_string", PStr "");
          ("downloaded_bytes", PInt 0) ].

Definition initial_task : dict :=
  [ ("status", PStr "pending");
    ("progress", initial_progress);
    ("filename", PNone); ("download_url", PNone); ("error_message", PNone) ].

(** ** The background runner *)

(** [needle in hay] for strings. *)
Fixpoint contains (needle hay : string) : bool :=
  String.prefix needle hay
  || match hay with
     | EmptyString => false
     | String _ r => contains needle r
     end.

(** [os.path.join(a, b)] *)
Definition path_join (a b : string) : string :=
  if String.prefix "/" b then b
  else if String.eqb a "" || String.eqb (String.substring (String.length a - 1) 1 a) "/"
       then a +:+ b
       else a +:+ "/" +:+ b.

Definition check_error_message : string := "فشل التحقق من الملف بعد انتهاء العملية.".
Definition unexpected_error_message : string := "حدث خطأ غير متوقع في الخادم.".

(** The message chosen for a [DownloadError] (lines 189-194). *)
Definition classify (err_str : string) : string :=
  if contains "ffmpeg was not found" err_str || contains "ffmpeg is not installed" err_str
  then "خطأ: تأكد من تثبيت ffmpeg وإضافته للـ PATH."
  else if contains "Unsupported URL" err_str then "الرابط غير مدعوم."
  else if contains "Video unavailable" err_str then "الفيديو غير متاح."
  else if contains "HTTP Error 429" err_str
  then "خطأ: تم حظر الطلب مؤقتًا (Too Many Requests)."
  else "خطأ تحميل: " +:+ String.substring 0 150 err_str +:+ "...".

(** The two [except] clauses (lines 183-201): both write the task record
    whatever its current status. *)
Definition on_exception (e : exn) (task_id : string) (tasks : store) : store :=
  match tasks !! task_id with
  | None => tasks
  | Some t =>
      let err_msg :=
        match e with
        | DownloadError err_str => classify err_str
        | _ => unexpected_error_message
        end in
      <[task_id := dict_set (dict_set t "status" (PStr "error"))
                            "error_message" (PStr err_msg)]> tasks
  end.

(** The final check on the task record (lines 168-181). *)
Definition check_body (target_filename target_filepath : string) (file_exists : bool)
  : prog unit :=
  status ← task_getitem "status";
  if in_final status then mret tt
  else if negb (String.eqb target_filepath "") && file_exists then
    task_setitem "status" (PStr "finished");;
    recorded ← task_get "filename" PNone;
    (if negb (truthy recorded)
     then task_setitem "filename" (PStr target_filename) else mret tt);;
    url ← task_get "download_url" PNone;
    (if negb (truthy url)
     then task_setitem "download_url"
            (PStr ("/api/files/" +:+ basename target_filename))
     else mret tt);;
    has_progress ← (fun s => (s, Ok (dict_mem s "progress")));
    (if negb has_progress
     then task_setitem "progress" (PDict []) else mret tt);;
    progress ← task_getitem "progress";
    progress' ← plift (py_setitem progress "percentage" (PInt 100));
    task_setitem "progress" progress'
  else
    task_setitem "status" (PStr "error");;
    task_setitem "error_message" (PStr check_error_message).

Definition consistency_check (task_id target_filename target_filepath : string)
    (file_exists : bool) (tasks : store) : store * result unit :=
  match tasks !! task_id with
  | None => (tasks, Ok tt)
  | Some t =>
      let '(t', r) := check_body target_filename target_filepath file_exists t in
      (<[task_id := t']> tasks, r)
  end.

(** What the outside world does during one run: yt-dlp's answers and the
    file system.  An exception raised by the hook leaves [download] as it
    is (yt-dlp does not catch it), which ends the delivery. *)
Record worker : Type := {
  extract_info : result pyval;   (* [ydl.extract_info(video_url, download=False)] *)
  emitted : list dict;           (* payloads [ydl.download] hands to the hook *)
  download_end : result unit;    (* how [ydl.download] ends after them *)
  file_exists : bool             (* [os.path.exists(target_filepath)] afterwards *)
}.

(** The hook calls of one download: the stores after each call, the last
    store, and the exception that stopped the delivery, if any. *)
Fixpoint deliver (task_id : string) (ds : list dict) (tasks : store)
  : list store * store * result unit :=
  match ds with
  | [] => ([], tasks, Ok tt)
  | d :: ds' =>
      let '(tasks', r) := ProgressHook_call task_id d tasks in
      match r with
      | Ok _ =>
          let '(tr, last, r') := deliver task_id ds' tasks' in
          (tasks' :: tr, last, r')
      | Raise e => ([tasks'], tasks', Raise e)
      end
  end.

(** How the [try] block is left. *)
Inductive ending : Type :=
| Completed
| Returned
| Raised (e : exn).

Section Runner.
(** [sanitize_filename] of the source, and [str()] as the f-string of
    line 114 applies it to the title and the id. *)
Variable sanitize_filename : string -> string.
Variable py_str : pyval -> string.
Variable DOWNLOAD_FOLDER : string.

(** [info_dict.get(k, dflt)] on whatever [extract_info] returned. *)
Definition info_get (info_dict : pyval) (k : string) (dflt : pyval) : result pyval :=
  match info_dict with
  | PDict kv => Ok (dict_get kv k dflt)
  | _ => Raise AttributeError
  end.

Definition target_name (info_dict selected_format : pyval) : result string :=
  video_title ← info_get info_dict "title" (PStr "video");
  video_id ← info_get info_dict "id" (PStr "unknown_id");
  let target_extension := if py_eq_str selected_format "mp3" then "mp3" else "mp4" in
  let base_filename :=
    sanitize_filename (py_str video_title +:+ " [" +:+ py_str video_id +:+ "]") in
  Ok (base_filename +:+ "." +:+ target_extension).

(** One [with tasks_lock:] block that writes the record of [task_id];
    [None] when the task is gone (the source returns). *)
Definition locked (f : dict -> dict) (task_id : string) (tasks : store) : option store :=
  match tasks !! task_id with
  | None => None
  | Some t => Some (<[task_id := f t]> tasks)
  end.

(** The [try] block (lines 101-181): the store after each locked block
    and each hook call, oldest first, and how the block ends. *)
Definition try_block (task_id : string) (selected_format : pyval) (w : worker)
    (tasks : store) : list store * ending :=
  match locked (fun t => dict_set t "status" (PStr "fetching_info")) task_id tasks with
  | None => ([], Returned)
  | Some s1 =>
    match info_dict ← extract_info w; target_name info_dict selected_format with
    | Raise e => ([s1], Raised e)
    | Ok target_filename =>
      let target_filepath := path_join DOWNLOAD_FOLDER target_filename in
      match locked (fun t => dict_set (dict_set t "filename" (PStr target_filename))
                                      "status" (PStr "preparing_download")) task_id s1 with
      | None => ([s1], Returned)
      | Some s2 =>
        match locked (fun t => dict_set t "status" (PStr "downloading")) task_id s2 with
        | None => ([s1; s2], Returned)
        | Some s3 =>
          let '(calls, s4, r) := deliver task_id (emitted w) s3 in
          match r ≫= (fun _ => download_end w) with
          | Raise e => (([s1; s2; s3] ++ calls)%list, Raised e)
          | Ok _ =>
            let '(s5, r') :=
              consistency_check task_id target_filename target_filepath
                (file_exists w) s4 in
            (([s1; s2; s3] ++ calls ++ [s5])%list,
             match r' with Ok _ => Completed | Raise e => Raised e end)
          end
        end
      end
    end
  end.

(** [run_download_task]: every store the run produces, oldest first. *)
Definition run_download_task (task_id : string) (selected_format : pyval)
    (w : worker) (tasks : store) : list store :=
  let '(trace, e) := try_block task_id selected_format w tasks in
  match e with
  | Raised e => (trace ++ [on_exception e task_id (List.last trace tasks)])%list
  | _ => trace
  end.

End Runner.

(** ** Request handlers *)

(** A JSON reply with its HTTP status code. *)
Record reply : Type := { code : nat; body : dict }.

Definition body_missing_message : string := "بيانات الطلب مفقودة.".
Definition fields_missing_message : string := "معلومات الفيديو أو الصيغة مفقودة.".

(** [data.get(k)] on the request body, which is any JSON value. *)
Definition body_get (data : pyval) (k : string) : result pyval :=
  match data with
  | PDict kv => Ok (dict_get kv k PNone)
  | _ => Raise AttributeError
  end.

(** [start_download_route] (lines 209-228): [data] is what
    [request.get_json()] gave, [task_id] the fresh [uuid4().hex].  Returns
    the reply, the store, and the arguments of the runner threads started. *)
Definition start_download_route (data : pyval) (task_id : string) (tasks : store)
  : result (reply * store * list (string * pyval * pyval)) :=
  if negb (truthy data) then
    Ok ({| code := 400;
           body := [("success", PBool false); ("error", PStr body_missing_message)] |},
        tasks, [])
  else
    video_url ← body_get data "video_url";
    selected_format ← body_get data "format";
    if negb (truthy video_url) || negb (truthy selected_format) then
      Ok ({| code := 400;
             body := [("success", PBool false); ("error", PStr fields_missing_message)] |},
          tasks, [])
    else
      Ok ({| code := 200;
             body := [("success", PBool true); ("task_id", PStr task_id)] |},
          <[task_id := initial_task]> tasks,
          [(task_id, video_url, selected_format)]).

(** What [event_stream] yields: a [data:] frame carrying a serialized
    snapshot, or an [event: error] frame (task not found, serialization
    failure). *)
Inductive event : Type :=
| Data (json_data : string)
| NotFound
| SerializationError.

Section Stream.
(** [json.dumps]; it raises [TypeError] on a value it cannot encode. *)
Variable json_dumps : pyval -> result string.

(** One turn of the [while True] loop (lines 240-269) on the store as the
    locked read finds it: the frames yielded, the new [last_sent_state_str]
    and whether the loop goes on.  An exception other than the inner
    [TypeError] reaches the generator's outer handler, which ends the
    stream without a frame. *)
Definition poll (task_id : string) (last_sent : option string) (tasks : store)
  : list event * option string * bool :=
  match tasks !! task_id with
  | Some ((_ :: _) as task_state_copy) =>
      match json_dumps (PDict task_state_copy) with
      | Raise TypeError => ([SerializationError], last_sent, false)
      | Raise _ => ([], last_sent, false)
      | Ok json_data =>
          let changed := negb (bool_decide (Some json_data = last_sent)) in
          let out := if changed then [Data json_data] else [] in
          let last_sent' := if changed then Some json_data else last_sent in
          match dict_getitem task_state_copy "status" with
          | Raise _ => (out, last_sent', false)
          | Ok status => (out, last_sent', negb (in_final status))
          end
      end
  | _ => ([NotFound], last_sent, false)
  end.

(** The generator run against the stores its successive polls find:
    everything yielded, and whether the generator has finished.  When the
    polls run out the client has gone away or time is up. *)
Fixpoint event_stream_from (task_id : string) (last_sent : option string)
    (polls : list store) : list event * bool :=
  match polls with
  | [] => ([], false)
  | tasks :: rest =>
      let '(out, last_sent', continue) := poll task_id last_sent tasks in
      if continue : bool then
        let '(more, closed) := event_stream_from task_id last_sent' rest in
        ((out ++ more)%list, closed)
      else (out, true)
  end.

Definition event_stream (task_id : string) (polls : list store) : list event * bool :=
  event_stream_from task_id None polls.

End Stream.

(** ** Serving files *)

(** [s.split('/')] *)
Fixpoint split_slash (s : string) : list string :=
  match s with
  | EmptyString => [EmptyString]
  | String c r =>
      if Ascii.eqb c "/" then EmptyString :: split_slash r
      else match split_slash r with
           | [] => [String c EmptyString]
           | h :: t => String c h :: t
           end
  end.

(** ['/'.join(comps)] *)
Fixpoint join_slash (comps : list string) : string :=
  match comps with
  | [] => EmptyString
  | [c] => c
  | c :: rest => c +:+ "/" +:+ join_slash rest
  end.

(** One turn of the component loop of [posixpath.normpath]. *)
Definition norm_step (initial_slashes : nat) (new_comps : list string) (comp : string)
  : list string :=
  if String.eqb comp "" || String.eqb comp "." then new_comps
  else if negb (String.eqb comp "..")
          || (Nat.eqb initial_slashes 0 && match new_comps with [] => true | _ => false end)
          || match new_comps with
             | [] => false
             | _ => String.eqb (List.last new_comps "") ".."
             end
       then (new_comps ++ [comp])%list
       else List.removelast new_comps.

(** [os.path.normpath] *)
Definition normpath (path : string) : string :=
  if String.eqb path "" then "."
  else
    let initial_slashes : nat :=
      if String.prefix "/" path then
        if String.prefix "//" path && negb (String.prefix "///" path) then 2%nat else 1%nat
      else 0%nat in
    let comps := List.fold_left (norm_step initial_slashes) (split_slash path) [] in
    let path' :=
      (if Nat.eqb initial_slashes 0 then ""
       else if Nat.eqb initial_slashes 1 then "/" else "//") +:+ join_slash comps in
    if String.eqb path' "" then "." else path'.

(** [os.path.abspath], [cwd] being [os.getcwd()]. *)
Definition abspath (cwd path : string) : string :=
  normpath (if String.prefix "/" path then path else path_join cwd path).

(** Whether [filename], joined to the download folder, resolves outside it
    (the test of line 289). *)
Definition escapes (cwd DOWNLOAD_FOLDER filename : string) : bool :=
  negb (String.prefix (abspath cwd DOWNLOAD_FOLDER)
          (abspath cwd (path_join DOWNLOAD_FOLDER filename))).

Definition file_missing_message : string := "الملف المطلوب غير موجود.".
Definition file_error_message : string := "خطأ داخلي أثناء محاولة إرسال الملف.".

Section Files.
(** Flask's [send_from_directory(directory, path)]: the reply that serves
    the file, or the exception it raises. *)
Context {served : Type}.
Variable send_from_directory : string -> string -> result served.
Variable cwd : string.
Variable DOWNLOAD_FOLDER : string.

(** The [try] body of [get_file] (lines 288-298); [abort(404)] raises
    werkzeug's [NotFound], an [HTTPException]. *)
Definition get_file_try (filename : string) : result served :=
  let safe_path := abspath cwd (path_join DOWNLOAD_FOLDER filename) in
  if negb (String.prefix (abspath cwd DOWNLOAD_FOLDER) safe_path)
  then Raise (HTTPException 404 "")
  else send_from_directory DOWNLOAD_FOLDER filename.

(** [get_file] with its [except] clauses (lines 299-304): the first takes
    [FileNotFoundError], the second every other [Exception]. *)
Definition get_file (filename : string) : result served :=
  match get_file_try filename with
  | Ok r => Ok r
  | Raise FileNotFoundError => Raise (HTTPException 404 file_missing_message)
  | Raise _ => Raise (HTTPException 500 file_error_message)
  end.

End Files.

(** ** Vocabulary of the statements *)

Definition is_str (v : pyval) : bool :=
  match v with PStr _ => true | _ => false end.

Definition is_dict (v : pyval) : bool :=
  match v with PDict _ => true | _ => false end.

(** A byte count the arithmetic of the hook accepts: a float, a bool, or an
    int that converts to a float. *)
Definition count_bound : Z := 2 ^ 1023.

Definition is_count (v : pyval) : bool :=
  match v with
  | PBool _ | PFloat _ => true
  | PInt z => Z.abs z <? count_bound
  | _ => false
  end.

(** The key is missing or its value satisfies [P]. *)
Definition absent_or (P : pyval -> bool) (d : dict) (k : string) : bool :=
  match dict_lookup d k with None => true | Some v => P v end.

Definition falsy_or (P : pyval -> bool) (v : pyval) : bool :=
  negb (truthy v) || P v.

Definition counts_ok (d : dict) : bool :=
  absent_or (falsy_or is_count) d "total_bytes"
  && absent_or (falsy_or is_count) d "total_bytes_estimate"
  && absent_or is_count d "downloaded_bytes".

(** A payload the hook handles without raising. *)
Definition payload_ok (d : dict) : bool :=
  dict_mem d "status" && counts_ok d && absent_or (falsy_or is_str) d "filename".

(** A task record as the application keeps it: a status, a progress dict,
    and a filename that is a string once known. *)
Definition task_ok (t : dict) : bool :=
  dict_mem t "status" && absent_or is_dict t "progress"
  && absent_or (falsy_or is_str) t "filename".

(** [t['status']] is there and is neither ['finished'] nor ['error']. *)
Definition live (t : dict) : bool :=
  match dict_lookup t "status" with
  | Some st => negb (in_final st)
  | None => false
  end.

(** [t['status']] is ['finished'] or ['error']. *)
Definition terminal (t : dict) : bool :=
  match dict_lookup t "status" with
  | Some st => in_final st
  | None => false
  end.

(** [t['progress']['percentage']] *)
Definition percentage_of (t : dict) : option pyval :=
  match dict_lookup t "progress" with
  | Some (PDict kv) => dict_lookup kv "percentage"
  | _ => None
  end.

(** The byte total a ['downloading'] payload announces (line 63). *)
Definition payload_total (d : dict) : pyval :=
  py_or (py_or (dict_get d "total_bytes" PNone)
               (dict_get d "total_bytes_estimate" PNone)) (PInt 0).

(** The percentage as the specification words it: downloaded/total*100,
    and 0 when the total is unknown or zero; no rounding. *)
Definition spec_percentage (d : dict) : result pyval :=
  positive ← py_gt0 (payload_total d);
  if positive : bool
  then q ← py_truediv (dict_get d "downloaded_bytes" (PInt 0)) (payload_total d);
       py_mul q (PInt 100)
  else Ok (PInt 0).

(** The percentage the hook stores: the same, rounded to one decimal. *)
Definition hook_percentage (d : dict) : result pyval :=
  p ← spec_percentage d; py_round1 p.

(** [a <= b] on numbers that are ints or finite floats, by exact value. *)
Definition float_le (a b : spec_float) : bool := SFleb a b.

Definition py_le (a b : pyval) : bool :=
  match as_number a, as_number b with
  | Some (inl x), Some (inl y) => x <=? y
  | Some x, Some y =>
      match to_float x, to_float y with
      | Ok fx, Ok fy => SFleb fx fy
      | _, _ => false
      end
  | _, _ => false
  end.

(** Whether each number of the list is at most the next. *)
Fixpoint nondecreasing (l : list pyval) : bool :=
  match l with
  | a :: (b :: _) as r => py_le a b && nondecreasing r
  | _ => true
  end.

(** The task record after each of a series of callbacks, this task being
    the one the hook is bound to. *)
Fixpoint apply_callbacks (ds : list dict) (t : dict) : list dict :=
  match ds with
  | [] => []
  | d :: r => let t' := fst (hook_body d t) in t' :: apply_callbacks r t'
  end.

(** The percentages a stream of callbacks leaves in the record, and the
    percentages the payloads carry by themselves. *)
Definition observed_percentages (ds : list dict) (t : dict) : list pyval :=
  omap percentage_of (apply_callbacks ds t).

Definition payload_percentages (ds : list dict) : list pyval :=
  omap (fun d => match hook_percentage d with Ok p => Some p | Raise _ => None end) ds.

(** Task records a run of the runner can produce, starting from the record
    the submit route seeds. *)
Definition reachable (t : dict) : Prop :=
  exists sanitize_filename py_str DOWNLOAD_FOLDER task_id selected_format w tasks,
    In tasks (<[task_id := initial_task]> ∅
              :: run_download_task sanitize_filename py_str DOWNLOAD_FOLDER
                   task_id selected_format w (<[task_id := initial_task]> ∅))
    /\ tasks !! task_id = Some t.

(** ** A JSON writer to run the stream on concrete stores

    [json_dumps_lite] writes what [json.dumps] writes for the values it
    accepts: strings of printable ASCII and floats with at most one decimal
    and fewer than 17 digits.  Other values are refused with
    [RuntimeError]. *)

Definition json_float_lite (f : spec_float) : result string :=
  match f with
  | S754_zero s => Ok (if s then "-0.0" else "0.0")
  | S754_infinity s => Ok (if s then "-Infinity" else "Infinity")
  | S754_nan => Ok "NaN"
  | S754_finite s m e =>
      let tenths := float_tenths m e in
      if SFeqb (float_round1 f) f && (tenths <? 10 ^ 16) then
        Ok ((if s then "-" else "") +:+ pretty (tenths / 10) +:+ "." +:+ pretty (tenths mod 10))
      else Raise RuntimeError
  end.

(** The double quote character. *)
Definition dquote : ascii := ascii_of_nat 34.

Definition printable (c : ascii) : bool :=
  let n := nat_of_ascii c in
  (32 <=? n)%nat && (n <? 127)%nat
  && negb (Ascii.eqb c dquote) && negb (Ascii.eqb c "\"%char).

Fixpoint all_printable (s : string) : bool :=
  match s with
  | EmptyString => true
  | String c r => printable c && all_printable r
  end.

Definition json_str_lite (s : string) : result string :=
  if all_printable s
  then Ok (String dquote s +:+ String dquote EmptyString)
  else Raise RuntimeError.

Fixpoint json_dumps_lite (v : pyval) : result string :=
  match v with
  | PNone => Ok "null"
  | PBool b => Ok (if b then "true" else "false")
  | PInt z => Ok (pretty z)
  | PFloat f => json_float_lite f
  | PStr s => json_str_lite s
  | PList l =>
      inner ← (fix items (l : list pyval) : result string :=
                 match l with
                 | [] => Ok ""
                 | [x] => json_dumps_lite x
                 | x :: r => a ← json_dumps_lite x; b ← items r; Ok (a +:+ ", " +:+ b)
                 end) l;
      Ok ("[" +:+ inner +:+ "]")
  | PDict kv =>
      inner ← (fix items (kv : list (string * pyval)) : result string :=
                 match kv with
                 | [] => Ok ""
                 | [(k, x)] =>
                     a ← json_str_lite k; b ← json_dumps_lite x; Ok (a +:+ ": " +:+ b)
                 | (k, x) :: r =>
                     a ← json_str_lite k; b ← json_dumps_lite x; c ← items r;
                     Ok (a +:+ ": " +:+ b +:+ ", " +:+ c)
                 end) kv;
      Ok ("{" +:+ inner +:+ "}")
  end.

(** ** Concrete runs *)

Definition seeded : store := <["t1" := initial_task]> ∅.

(** A download that reports ['finished'] and whose post-processing then
    fails because ffmpeg is missing. *)
Definition finished_then_failed : worker :=
  {| extract_info := Ok (PDict [("title", PStr "Clip"); ("id", PStr "abc")]);
     emitted := [[("status", PStr "finished");
                  ("filename", PStr "/srv/app/downloads/clip.mp4")]];
     download_end := Raise (DownloadError "ERROR: Postprocessing: ffmpeg was not found");
     file_exists := true |}.

Definition finished_record : dict :=
  [ ("status", PStr "finished");
    ("progress",
     PDict [ ("percentage", PInt 100); ("speed", PStr ""); ("eta", PStr "");
             ("total_bytes", PInt 0); ("total_bytes_string", PStr "");
             ("downloaded_bytes", PInt 0) ]);
    ("filename", PStr "/srv/app/downloads/clip.mp4");
    ("download_url", PStr "/api/files/clip.mp4");
    ("error_message", PNone) ].

Definition failed_record : dict :=
  dict_set (dict_set finished_record "status" (PStr "error"))
    "error_message" (PStr (classify "ERROR: Postprocessing: ffmpeg was not found")).

Definition payload_downloading (downloaded total : Z) : dict :=
  [ ("status", PStr "downloading");
    ("downloaded_bytes", PInt downloaded); ("total_bytes", PInt total) ].

Definition payload_finished (filename : string) : dict :=
  [ ("status", PStr "finished"); ("filename", PStr filename) ].

(** The six records of the streaming scenario: pending, fetching_info,
    preparing_download, downloading at 50%, downloading at 100%, finished. *)
Definition snap_pending : dict := initial_task.
Definition snap_fetching : dict := dict_set snap_pending "status" (PStr "fetching_info").
Definition snap_preparing : dict :=
  dict_set (dict_set snap_fetching "filename" (PStr "clip.mp4"))
    "status" (PStr "preparing_download").
Definition snap_half : dict := fst (hook_body (payload_downloading 50 100) snap_preparing).
Definition snap_full : dict := fst (hook_body (payload_downloading 100 100) snap_half).
Definition snap_finished : dict := fst (hook_body (payload_finished "clip.mp4") snap_full).

Definition scenario : list dict :=
  [snap_pending; snap_fetching; snap_preparing; snap_half; snap_full; snap_finished].

(** Each record of [records] seen by one poll and then by [k] more, [k]
    taken from [repeats] in order. *)
Fixpoint stutter (records : list dict) (repeats : list nat) : list dict :=
  match records with
  | [] => []
  | t :: rest =>
      (repeat t (S (hd 0%nat repeats)) ++ stutter rest (tl repeats))%list
  end.

(** Stores whose record for [task_id] is, poll after poll, the given one. *)
Definition observes (task_id : string) (polls : list store) (records : list dict) : Prop :=
  Forall2 (fun (tasks : store) t => tasks !! task_id = Some t) polls records.

(** ** Records named in the statements *)

(** The record after lines 76-80 of a ['finished'] callback whose final
    filename is [ff], [url] being the link derived from it, if any. *)
Definition finished_core (t : dict) (ff : pyval) (url : option string) : dict :=
  let t1 := dict_set (dict_set t "status" (PStr "finished")) "filename" ff in
  match url with
  | Some u => dict_set t1 "download_url" (PStr u)
  | None => t1
  end.

(** The record the final check leaves when the file is there, before the
    percentage is written (lines 171-175). *)
Definition backfilled (t : dict) (target_filename : string) : dict :=
  let t1 := dict_set t "status" (PStr "finished") in
  let t2 := if truthy (dict_get t1 "filename" PNone) then t1
            else dict_set t1 "filename" (PStr target_filename) in
  let t3 := if truthy (dict_get t2 "download_url" PNone) then t2
            else dict_set t2 "download_url"
                   (PStr ("/api/files/" +:+ basename target_filename)) in
  if dict_mem t3 "progress" then t3 else dict_set t3 "progress" (PDict []).

(** A field of the request body, [None] when the body or the key is absent. *)
Definition body_field (data : pyval) (k : string) : pyval :=
  match data with PDict kv => dict_get kv k PNone | _ => PNone end.

(** No serialization equals the one sent just before it. *)
Fixpoint fresh_chain (last_sent : option string) (js : list string) : Prop :=
  match js with
  | [] => True
  | j :: rest => Some j <> last_sent /\ fresh_chain (Some j) rest
  end.

(** The scenario as [json_dumps_lite] writes it, and stores that show each
    of its records to one or more polls. *)
Definition scenario_json : list string :=
  omap (fun t => match json_dumps_lite (PDict t) with Ok j => Some j | Raise _ => None end)
    scenario.

Definition scenario_polls : list store :=
  map (fun t => <["t1" := t]> ∅) (stutter scenario [1; 0; 2; 0; 0; 3]%nat).

(** ** [sanitize_filename], on Python strings as lists of code points *)

(** A Python [str]: its code points. *)
Abbreviation ustr := (list N).

(** The code points of an ASCII literal. *)
Definition codes (s : string) : ustr :=
  map (fun c => N.of_nat (nat_of_ascii c)) (list_ascii_of_string s).

(** The class of the first pattern: backslash, slash, star, question mark,
    colon, double quote, angle brackets and bar. *)
Definition forbidden (c : N) : bool :=
  existsb (N.eqb c) [92; 47; 42; 63; 58; 34; 60; 62; 124]%N.

(** [\s] on a [str] pattern, which is [str.isspace] on one character. *)
Definition is_space (c : N) : bool :=
  ((9 <=? c) && (c <=? 13) || (28 <=? c) && (c <=? 32)
   || (c =? 133) || (c =? 160) || (c =? 5760)
   || (8192 <=? c) && (c <=? 8202)
   || (c =? 8232) || (c =? 8233) || (c =? 8239) || (c =? 8287) || (c =? 12288))%N.

(** The first [re.sub]: every forbidden character is deleted. *)
Definition remove_forbidden (s : ustr) : ustr :=
  List.filter (fun c => negb (forbidden c)) s.

(** The second [re.sub]: each run of white space becomes one space;
    [in_run] tells that the character before was white space, already
    replaced. *)
Fixpoint collapse_from (in_run : bool) (s : ustr) : ustr :=
  match s with
  | [] => []
  | c :: r =>
      if is_space c
      then if in_run then collapse_from true r else 32%N :: collapse_from true r
      else c :: collapse_from false r
  end.

Definition collapse_spaces (s : ustr) : ustr := collapse_from false s.

(** [s.lstrip()], [s.rstrip()] and [s.strip()] *)
Fixpoint lstrip (s : ustr) : ustr :=
  match s with
  | [] => []
  | c :: r => if is_space c then lstrip r else s
  end.

Fixpoint rstrip (s : ustr) : ustr :=
  match s with
  | [] => []
  | c :: r =>
      match rstrip r with
      | [] => if is_space c then [] else [c]
      | r' => c :: r'
      end
  end.

Definition strip (s : ustr) : ustr := rstrip (lstrip s).

(** [s.rfind(c)], -1 when [c] does not occur. *)
Fixpoint rfind (c : N) (s : ustr) : Z :=
  match s with
  | [] => -1
  | x :: r =>
      let i := rfind c r in
      if 0 <=? i then i + 1 else if N.eqb x c then 0 else -1
  end.

(** [s[:k]] with Python's reading of a negative bound. *)
Definition slice_to (s : ustr) (k : Z) : ustr :=
  if 0 <=? k then firstn (Z.to_nat k) s
  else firstn (Z.to_nat (Z.of_nat (length s) + k)) s.

(** [s[k:]] for [0 <= k]. *)
Definition slice_from (s : ustr) (k : Z) : ustr := skipn (Z.to_nat k) s.

(** [os.path.splitext] ([genericpath._splitext] with separator [/]): the
    extension starts at the last dot, if that dot comes after the last
    separator and after a character of the file name that is not a dot. *)
Definition splitext (p : ustr) : ustr * ustr :=
  let sepIndex := rfind 47%N p in
  let dotIndex := rfind 46%N p in
  if (sepIndex <? dotIndex)
     && existsb (fun c => negb (N.eqb c 46%N))
          (slice_from (slice_to p dotIndex) (sepIndex + 1))
  then (slice_to p dotIndex, slice_from p dotIndex)
  else (p, []).

Definition max_len : Z := 100.

(** The first three statements of [sanitize_filename] (lines 34-35). *)
Definition clean (filename : ustr) : ustr :=
  strip (collapse_spaces (remove_forbidden filename)).

(** The truncation of lines 37-39. *)
Definition shorten (sanitized : ustr) : ustr :=
  if max_len <? Z.of_nat (length sanitized) then
    let '(name_part, ext_part) := splitext sanitized in
    (slice_to name_part (max_len - Z.of_nat (length ext_part) - 3)
     ++ codes "..." ++ ext_part)%list
  else sanitized.

(** [sanitize_filename] (lines 33-40) *)
Definition sanitize_filename (filename : ustr) : ustr :=
  let sanitized := shorten (clean filename) in
  match sanitized with
  | [] => codes "downloaded_file"
  | _ => sanitized
  end.

(** White space of a sanitized name: only plain spaces, never two in a
    row ([prev_space] tells that the character before was one), and none
    at either end. *)
Fixpoint spaced_ok (prev_space : bool) (s : ustr) : bool :=
  match s with
  | [] => true
  | c :: r =>
      if is_space c then N.eqb c 32 && negb prev_space && spaced_ok true r
      else spaced_ok false r
  end.

Fixpoint ends_in_space (s : ustr) : bool :=
  match s with
  | [] => false
  | [c] => is_space c
  | _ :: r => ends_in_space r
  end.

Definition tidy (s : ustr) : bool := spaced_ok true s && negb (ends_in_space s).

(** ** The order of the statuses *)

(** The place of a record's status in the life of a task: pending,
    fetching_info, preparing_download, downloading, then finished or
    error. *)
Definition status_rank (t : dict) : option nat :=
  match dict_lookup t "status" with
  | Some (PStr s) =>
      if String.eqb s "pending" then Some 0%nat
      else if String.eqb s "fetching_info" then Some 1%nat
      else if String.eqb s "preparing_download" then Some 2%nat
      else if String.eqb s "downloading" then Some 3%nat
      else if String.eqb s "finished" || String.eqb s "error" then Some 4%nat
      else None
  | _ => None
  end.

(** Along [trace] the status of [task_id] is always one of the six and
    never moves back, starting from rank [r]. *)
Fixpoint ascending_from (task_id : string) (r : nat) (trace : list store) : Prop :=
  match trace with
  | [] => True
  | tasks :: rest =>
      exists r', (tasks !! task_id ≫= status_rank) = Some r'
                 /\ (r <= r')%nat /\ ascending_from task_id r' rest
  end.

(** A title long enough to be cut by [sanitize_filename]. *)
Definition long_title : ustr :=
  codes (String.concat "" (repeat "abcdefghij" 12) +:+ ".mp4").

(** A title with forbidden characters and runs of white space. *)
Definition messy_title : ustr := codes "  My: video / <best>  .mp4  ".

(** ** Vocabulary of the stream *)

(** The serializations carried by the [data:] frames of a stream. *)
Definition payloads (frames : list event) : list string :=
  omap (fun e => match e with Data j => Some j | _ => None end) frames.

Definition is_data (e : event) : bool :=
  match e with Data _ => true | _ => false end.

(** What a poll finds is the end of the task: the record is terminal, or
    there is none (absent, or empty and so falsy at line 243). *)
Definition settled (task_id : string) (tasks : store) : bool :=
  match tasks !! task_id with
  | Some ((_ :: _) as t) => terminal t
  | _ => true
  end.

(** ** Vocabulary of the paths *)

(** The test of [os.path.join] for a trailing slash on its first argument. *)
Definition ends_with_slash (a : string) : bool :=
  String.eqb (String.substring (String.length a - 1) 1 a) "/".

(** * Properties *)

(** ** Sanity checks of the embedding *)

Example truediv_third :
  py_truediv (PInt 1) (PInt 3) = Ok (PFloat (S754_finite false 6004799503160661 (-54))).
Proof. reflexivity. Qed.

Example round1_third :
  (q ← py_truediv (PInt 1) (PInt 3); p ← py_mul q (PInt 100); py_round1 p)
  = Ok (PFloat (float_of_ratio 333 10)).
Proof. vm_compute. reflexivity. Qed.

Example round1_half :
  (q ← py_truediv (PInt 50) (PInt 100); p ← py_mul q (PInt 100); py_round1 p)
  = Ok (PFloat (float_of_ratio 50 1)).
Proof. vm_compute. reflexivity. Qed.

Example basename_nested : basename "/srv/downloads/clip.mp4" = "clip.mp4".
Proof. reflexivity. Qed.

Example basename_plain : basename "clip.mp4" = "clip.mp4".
Proof. reflexivity. Qed.

Example normpath_dotdot : normpath "/srv/app/downloads/../secret.txt" = "/srv/app/secret.txt".
Proof. reflexivity. Qed.

Example normpath_plain : normpath "/srv/app/downloads/clip.mp4" = "/srv/app/downloads/clip.mp4".
Proof. reflexivity. Qed.

Example normpath_relative : normpath "a/./b//../../../c/" = "../c".
Proof. reflexivity. Qed.

(** ** Dicts *)

Lemma dict_lookup_set_eq (d : dict) k v : dict_lookup (dict_set d k v) k = Some v.
Proof.
  induction d as [|[k' v'] d IH]; simpl.
  - by rewrite String.eqb_refl.
  - destruct (String.eqb k k') eqn:E; simpl; rewrite E; [done | apply IH].
Qed.

Lemma dict_lookup_set_ne (d : dict) k k' v :
  k <> k' -> dict_lookup (dict_set d k v) k' = dict_lookup d k'.
Proof.
  intros Hne. induction d as [|[k0 v0] d IH]; simpl.
  - destruct (String.eqb_spec k' k); [congruence | done].
  - destruct (String.eqb_spec k k0) as [->|]; simpl.
    + destruct (String.eqb_spec k' k0); [congruence | done].
    + destruct (String.eqb_spec k' k0); [done | apply IH].
Qed.

Lemma dict_get_set_eq (d : dict) k v dflt : dict_get (dict_set d k v) k dflt = v.
Proof. unfold dict_get. by rewrite dict_lookup_set_eq. Qed.

Lemma dict_get_set_ne (d : dict) k k' v dflt :
  k <> k' -> dict_get (dict_set d k v) k' dflt = dict_get d k' dflt.
Proof. intros. unfold dict_get. by rewrite dict_lookup_set_ne. Qed.

Lemma dict_set_nonempty (d : dict) k v : dict_set d k v <> [].
Proof. destruct d as [|[k' v'] d]; simpl; [done | by destruct (String.eqb k k')]. Qed.

(** ** The hook leaves a terminal record alone *)

Lemma hook_body_terminal (d t : dict) : terminal t = true -> hook_body d t = (t, Ok tt).
Proof.
  unfold terminal, hook_body, mbind, prog_bind, task_getitem, dict_getitem.
  destruct (dict_lookup t "status") as [st|]; [|done].
  intros ->. done.
Qed.

Lemma hook_terminal_noop task_id d (tasks : store) t :
  tasks !! task_id = Some t -> terminal t = true ->
  ProgressHook_call task_id d tasks = (tasks, Ok tt).
Proof.
  intros Ht Hfin. unfold ProgressHook_call. rewrite Ht, hook_body_terminal by done.
  by rewrite insert_id.
Qed.

Lemma hook_absent_noop task_id d (tasks : store) :
  tasks !! task_id = None -> ProgressHook_call task_id d tasks = (tasks, Ok tt).
Proof. intros Ht. unfold ProgressHook_call. by rewrite Ht. Qed.

Lemma check_terminal_noop task_id tf tp ex (tasks : store) t :
  tasks !! task_id = Some t -> terminal t = true ->
  consistency_check task_id tf tp ex tasks = (tasks, Ok tt).
Proof.
  intros Ht Hfin. unfold consistency_check. rewrite Ht.
  unfold terminal in Hfin.
  unfold check_body, mbind, prog_bind, task_getitem, dict_getitem.
  destruct (dict_lookup t "status") as [st|]; [|done].
  rewrite Hfin. simpl. by rewrite insert_id.
Qed.

(** The handlers write whatever the status. *)
Lemma on_exception_sets_error e task_id (tasks : store) t :
  tasks !! task_id = Some t ->
  exists t', on_exception e task_id tasks !! task_id = Some t'
    /\ dict_lookup t' "status" = Some (PStr "error")
    /\ exists msg, dict_lookup t' "error_message" = Some (PStr msg).
Proof.
  intros Ht. unfold on_exception. rewrite Ht. eexists. split.
  - apply lookup_insert_eq.
  - split.
    + rewrite dict_lookup_set_ne by done. apply dict_lookup_set_eq.
    + eexists. apply dict_lookup_set_eq.
Qed.

(** Claim C1 fails on the runner's exception handlers.  The hook reports
    ['finished'], the record is terminal, and the [DownloadError] that
    yt-dlp raises afterwards (post-processing without ffmpeg) makes the
    handler of lines 183-195 rewrite [status] and [error_message]: the
    record before the handler and the record after it differ.  The hook and
    the final check are guarded ([hook_terminal_noop],
    [check_terminal_noop]); the handlers are not. *)
Theorem handler_overwrites_finished_record :
  forall sanitize_filename py_str DOWNLOAD_FOLDER,
    let trace := run_download_task sanitize_filename py_str DOWNLOAD_FOLDER
                   "t1" (PStr "mp3") finished_then_failed seeded in
    List.last (List.removelast trace) ∅ !! "t1" = Some finished_record
    /\ terminal finished_record = true
    /\ List.last trace ∅ !! "t1" = Some failed_record
    /\ failed_record <> finished_record
    /\ dict_lookup failed_record "status" = Some (PStr "error").
Proof.
  intros. subst trace. repeat split; try (vm_compute; reflexivity).
  vm_compute. discriminate.
Qed.

(** Claim C2 fails in a reachable state.  The same run ends in a record
    whose [status] is ['error'] while [download_url] is still the link the
    ['finished'] callback wrote: non-null without [status == 'finished']. *)
Theorem error_record_keeps_download_url :
  reachable failed_record
  /\ dict_lookup failed_record "status" = Some (PStr "error")
  /\ dict_lookup failed_record "download_url" = Some (PStr "/api/files/clip.mp4").
Proof.
  split; [|split; vm_compute; reflexivity].
  exists (fun s => s), (fun _ => ""), "/srv/app/downloads", "t1", (PStr "mp3"),
    finished_then_failed, (<["t1" := failed_record]> ∅).
  split; [|apply lookup_insert_eq].
  vm_compute. do 5 right. left. reflexivity.
Qed.

(** ** Serving files *)

Section FileFacts.
Context {served : Type}.
Variable send_from_directory : string -> string -> result served.
Variables cwd DOWNLOAD_FOLDER : string.

Lemma get_file_escape filename :
  escapes cwd DOWNLOAD_FOLDER filename = true ->
  get_file send_from_directory cwd DOWNLOAD_FOLDER filename
  = Raise (HTTPException 500 file_error_message).
Proof.
  unfold escapes, get_file, get_file_try. intros ->. reflexivity.
Qed.

Lemma get_file_served filename r :
  get_file send_from_directory cwd DOWNLOAD_FOLDER filename = Ok r ->
  escapes cwd DOWNLOAD_FOLDER filename = false
  /\ send_from_directory DOWNLOAD_FOLDER filename = Ok r.
Proof.
  unfold escapes, get_file, get_file_try.
  destruct (negb _); [discriminate|].
  destruct (send_from_directory _ _) as [r'|e]; [intros [= ->]; done|].
  destruct e; discriminate.
Qed.
End FileFacts.

(** Claim C3: a name that leaves the download folder, by a parent segment
    or as an absolute path, is never served, but the reply is not the 404
    of line 291: [abort(404)] raises inside the [try], the clause
    [except Exception] catches it, and the reply is 500. *)
Theorem traversal_request_answers_500 :
  forall (served : Type) (send_from_directory : string -> string -> result served),
    get_file send_from_directory "/" "/srv/app/downloads" "../secret.txt"
    = Raise (HTTPException 500 file_error_message)
    /\ get_file send_from_directory "/" "/srv/app/downloads" "/etc/passwd"
       = Raise (HTTPException 500 file_error_message).
Proof. intros. split; reflexivity. Qed.

(** ** Arithmetic of the hook does not raise on byte counts *)

Lemma overflow_bound_large : count_bound < float_overflow_bound.
Proof. vm_compute. reflexivity. Qed.

Lemma count_bound_pos : 100 < count_bound.
Proof. vm_compute. reflexivity. Qed.

#[local] Opaque count_bound float_overflow_bound.

Lemma as_number_count v : is_count v = true -> exists n, as_number v = Some n.
Proof. destruct v; simpl; try discriminate; eauto. Qed.

Lemma int_to_float_ok z : Z.abs z < count_bound -> exists f, int_to_float z = Ok f.
Proof.
  intros Hz. unfold int_to_float.
  pose proof overflow_bound_large.
  destruct (Z.leb_spec float_overflow_bound (Z.abs z)); [lia | eauto].
Qed.

Lemma to_float_count v n :
  is_count v = true -> as_number v = Some n -> exists f, to_float n = Ok f.
Proof.
  destruct v; simpl; try discriminate.
  - intros _ [= <-]. simpl. apply int_to_float_ok. pose proof count_bound_pos. destruct b; simpl; lia.
  - intros Hz [= <-]. simpl. apply int_to_float_ok. lia.
  - intros _ [= <-]. simpl. eauto.
Qed.

Lemma float_positive_nonzero f : SFltb (S754_zero false) f = true -> float_is_zero f = false.
Proof. destruct f; simpl; try done. Qed.

Lemma truediv_ok a b :
  is_count a = true -> is_count b = true -> py_gt0 b = Ok true ->
  exists q, py_truediv a b = Ok (PFloat q).
Proof.
  intros Ha Hb Hpos.
  destruct (as_number_count _ Ha) as [x Hx], (as_number_count _ Hb) as [y Hy].
  destruct (to_float_count _ _ Ha Hx) as [fx Hfx], (to_float_count _ _ Hb Hy) as [fy Hfy].
  unfold py_gt0 in Hpos. unfold py_truediv. rewrite Hx, Hy in *.
  assert (Hnz : number_is_zero y = false).
  { destruct y as [z|f]; simpl; injection Hpos as Hpos.
    - lia.
    - by apply float_positive_nonzero. }
  destruct x as [x|x], y as [y|y]; simpl in *.
  - rewrite Hnz.
    assert (Hxb : Z.abs x < count_bound).
    { pose proof count_bound_pos.
      destruct a; simpl in *; try discriminate; injection Hx as <-; [destruct b0; simpl|]; lia. }
    pose proof overflow_bound_large.
    destruct (Z.leb_spec (float_overflow_bound * Z.abs y) (Z.abs x)); [nia | eauto].
  - rewrite Hfx. simpl. rewrite Hnz. eauto.
  - rewrite Hfy. simpl. rewrite Hnz. eauto.
  - rewrite Hnz. eauto.
Qed.

Lemma mul_100_ok q : exists p, py_mul (PFloat q) (PInt 100) = Ok (PFloat p).
Proof.
  unfold py_mul. simpl. unfold int_to_float.
  pose proof count_bound_pos. pose proof overflow_bound_large.
  destruct (Z.leb_spec float_overflow_bound (Z.abs 100)); [simpl in *; lia|].
  simpl. eauto.
Qed.

Lemma falsy_or_truthy P v : falsy_or P v = true -> truthy v = true -> P v = true.
Proof. unfold falsy_or. intros H Ht. by rewrite Ht in H. Qed.

Lemma is_count_zero : is_count (PInt 0) = true.
Proof. pose proof count_bound_pos. apply Z.ltb_lt. simpl. lia. Qed.

Lemma payload_total_count d :
  absent_or (falsy_or is_count) d "total_bytes" = true ->
  absent_or (falsy_or is_count) d "total_bytes_estimate" = true ->
  is_count (payload_total d) = true.
Proof.
  unfold absent_or, payload_total, py_or, dict_get. intros Ha Hb.
  assert (Hor : forall a b, falsy_or is_count a = true -> is_count b = true ->
            is_count (if truthy a then a else b) = true).
  { intros a b Hfa Hcb. destruct (truthy a) eqn:E; eauto using falsy_or_truthy. }
  assert (Hnone : forall b, is_count b = true ->
            is_count (if truthy PNone then PNone else b) = true) by done.
  destruct (dict_lookup d "total_bytes") as [a|],
           (dict_lookup d "total_bytes_estimate") as [b|].
  - destruct (truthy a) eqn:Ea.
    + rewrite Ea. eauto using falsy_or_truthy.
    + apply Hor; [done | apply is_count_zero].
  - destruct (truthy a) eqn:Ea.
    + rewrite Ea. eauto using falsy_or_truthy.
    + simpl. apply is_count_zero.
  - simpl. apply Hor; [done | apply is_count_zero].
  - simpl. apply is_count_zero.
Qed.

Lemma counts_ok_inv d :
  counts_ok d = true ->
  is_count (payload_total d) = true
  /\ is_count (dict_get d "downloaded_bytes" (PInt 0)) = true.
Proof.
  unfold counts_ok. intros H.
  apply andb_prop in H as [H Hd]. apply andb_prop in H as [Ha Hb].
  split; [by apply payload_total_count|].
  unfold absent_or, dict_get in *.
  destruct (dict_lookup d "downloaded_bytes"); [done | reflexivity].
Qed.

Lemma spec_percentage_ok d :
  counts_ok d = true -> exists p, spec_percentage d = Ok p /\ is_count p = true.
Proof.
  intros H. apply counts_ok_inv in H as [Ht Hd].
  unfold spec_percentage.
  destruct (as_number_count _ Ht) as [n Hn].
  destruct (py_gt0 (payload_total d)) as [[|]|e] eqn:Hpos; simpl.
  - destruct (truediv_ok _ _ Hd Ht Hpos) as [q ->]. simpl.
    destruct (mul_100_ok q) as [p ->]. eauto.
  - exists (PInt 0). done.
  - unfold py_gt0 in Hpos. rewrite Hn in Hpos. by destruct n.
Qed.

Lemma hook_percentage_ok d :
  counts_ok d = true -> exists p, hook_percentage d = Ok p.
Proof.
  intros H. destruct (spec_percentage_ok _ H) as (p & Hp & Hc).
  unfold hook_percentage. rewrite Hp. simpl.
  destruct (as_number_count _ Hc) as [n Hn]. unfold py_round1. rewrite Hn.
  destruct n; eauto.
Qed.

Lemma downloading_progress_eq d :
  downloading_progress d =
  (rounded ← hook_percentage d;
   Ok (PDict [ ("percentage", rounded);
               ("speed", dict_get d "_speed_str" (PStr "N/A"));
               ("eta", dict_get d "_eta_str" (PStr "N/A"));
               ("total_bytes", payload_total d);
               ("total_bytes_string", dict_get d "_total_bytes_str" (PStr "N/A"));
               ("downloaded_bytes", dict_get d "downloaded_bytes" (PInt 0)) ])).
Proof.
  unfold downloading_progress, hook_percentage, spec_percentage.
  fold (payload_total d).
  destruct (py_gt0 (payload_total d)) as [[|]|e]; simpl; try reflexivity.
  destruct (py_truediv _ _) as [q|e]; simpl; [|reflexivity].
  destruct (py_mul _ _) as [p|e]; simpl; reflexivity.
Qed.

#[local] Transparent count_bound float_overflow_bound.

(** ** The hook, branch by branch *)

Ltac run_prog :=
  unfold mbind, prog_bind, mret, prog_ret, plift, task_getitem, task_get,
    task_setitem, dict_getitem; simpl.

Lemma live_status t : live t = true ->
  exists st, dict_lookup t "status" = Some st /\ in_final st = false.
Proof.
  unfold live. destruct (dict_lookup t "status") as [st|]; [|done].
  intros H. exists st. split; [done|]. by destruct (in_final st).
Qed.

Lemma hook_body_no_status d t :
  live t = true -> dict_lookup d "status" = None ->
  hook_body d t = (t, Raise (KeyError "status")).
Proof.
  intros (st & Hst & Hnf)%live_status Hd. unfold hook_body. run_prog.
  rewrite Hst, Hnf, Hd. reflexivity.
Qed.

Lemma hook_body_downloading d t :
  live t = true -> dict_lookup d "status" = Some (PStr "downloading") ->
  hook_body d t =
  match downloading_progress d with
  | Ok p => (dict_set (dict_set t "status" (PStr "downloading")) "progress" p, Ok tt)
  | Raise e => (dict_set t "status" (PStr "downloading"), Raise e)
  end.
Proof.
  intros (st & Hst & Hnf)%live_status Hd. unfold hook_body. run_prog.
  rewrite Hst, Hnf, Hd. simpl.
  destruct (downloading_progress d); reflexivity.
Qed.

Lemma hook_body_finished d t :
  live t = true -> dict_lookup d "status" = Some (PStr "finished") ->
  let ff := py_or (dict_get d "filename" PNone) (dict_get t "filename" PNone) in
  hook_body d t =
  match (if truthy ff then b ← py_basename ff; Ok (Some ("/api/files/" +:+ b))
         else Ok None) with
  | Raise e => (finished_core t ff None, Raise e)
  | Ok url =>
      let t2 := finished_core t ff url in
      match py_setitem (dict_get t2 "progress" (PDict [])) "percentage" (PInt 100) with
      | Ok p => (dict_set t2 "progress" p, Ok tt)
      | Raise e => (t2, Raise e)
      end
  end.
Proof.
  intros (st & Hst & Hnf)%live_status Hd ff. unfold hook_body. run_prog.
  rewrite Hst, Hnf, Hd. simpl. fold ff.
  destruct (truthy ff); simpl.
  - destruct (py_basename ff) as [b|e]; simpl; [|reflexivity].
    unfold finished_core.
    destruct (py_setitem _ _ _); reflexivity.
  - unfold finished_core. destruct (py_setitem _ _ _); reflexivity.
Qed.

Lemma hook_body_error d t :
  live t = true -> dict_lookup d "status" = Some (PStr "error") ->
  hook_body d t =
  (dict_set (dict_set (dict_set t "status" (PStr "error"))
               "error_message" (PStr hook_error_message))
     "progress" (dict_get t "progress" (PDict [])), Ok tt).
Proof.
  intros (st & Hst & Hnf)%live_status Hd. unfold hook_body. run_prog.
  rewrite Hst, Hnf, Hd. reflexivity.
Qed.

Lemma hook_body_other d t cs :
  live t = true -> dict_lookup d "status" = Some cs ->
  py_eq_str cs "downloading" = false -> py_eq_str cs "finished" = false ->
  py_eq_str cs "error" = false ->
  hook_body d t = (dict_set t "progress" (dict_get t "progress" (PDict [])), Ok tt).
Proof.
  intros (st & Hst & Hnf)%live_status Hd H1 H2 H3. unfold hook_body. run_prog.
  rewrite Hst, Hnf, Hd. simpl. rewrite H1, H2, H3. reflexivity.
Qed.

Lemma py_eq_str_true v s : py_eq_str v s = true -> v = PStr s.
Proof.
  destruct v; simpl; try discriminate.
  by intros ->%String.eqb_eq.
Qed.

Lemma progress_setitem_ok t :
  absent_or is_dict t "progress" = true ->
  exists kv, dict_get t "progress" (PDict []) = PDict kv.
Proof.
  unfold absent_or, dict_get. destruct (dict_lookup t "progress") as [[]|]; try done; eauto.
Qed.

(** Claim C5, counterexample: a payload without the status key, delivered
    for a pending task, makes the hook raise [KeyError] into the worker. *)
Lemma missing_status_key_raises :
  snd (ProgressHook_call "t1" [] seeded) = Raise (KeyError "status").
Proof. vm_compute. reflexivity. Qed.

Lemma hook_body_ok d t :
  live t = true -> task_ok t = true -> payload_ok d = true ->
  snd (hook_body d t) = Ok tt.
Proof.
  intros Hlive Ht Hd.
  unfold payload_ok in Hd. apply andb_prop in Hd as [Hd Hfn].
  apply andb_prop in Hd as [Hst Hcounts].
  unfold task_ok in Ht. apply andb_prop in Ht as [Ht Htfn].
  apply andb_prop in Ht as [_ Hprog].
  unfold dict_mem in Hst.
  destruct (dict_lookup d "status") as [cs|] eqn:Hcs; [|done].
  destruct (py_eq_str cs "downloading") eqn:E1.
  { apply py_eq_str_true in E1 as ->.
    rewrite hook_body_downloading, downloading_progress_eq by done.
    destruct (hook_percentage_ok _ Hcounts) as [p ->]. reflexivity. }
  destruct (py_eq_str cs "finished") eqn:E2.
  { apply py_eq_str_true in E2 as ->.
    rewrite hook_body_finished by done.
    set (ff := py_or _ _).
    assert (Hff : falsy_or is_str ff = true).
    { subst ff. unfold py_or, absent_or, dict_get in *.
      destruct (dict_lookup d "filename") as [a|]; simpl.
      - destruct (truthy a) eqn:Ea; [done|].
        destruct (dict_lookup t "filename"); [done | reflexivity].
      - destruct (dict_lookup t "filename"); [done | reflexivity]. }
    assert (Hurl : exists url,
      (if truthy ff then b ← py_basename ff; Ok (Some ("/api/files/" +:+ b))
       else Ok None) = Ok url).
    { unfold falsy_or in Hff. destruct (truthy ff); simpl in *; [|eauto].
      destruct ff; try discriminate. simpl. eauto. }
    destruct Hurl as [url ->]. cbv zeta.
    assert (Hp : absent_or is_dict (finished_core t ff url) "progress" = true).
    { unfold absent_or, finished_core in *.
      destruct url; rewrite !dict_lookup_set_ne by done; done. }
    destruct (progress_setitem_ok _ Hp) as [kv ->]. reflexivity. }
  destruct (py_eq_str cs "error") eqn:E3.
  { apply py_eq_str_true in E3 as ->. by rewrite hook_body_error. }
  by rewrite (hook_body_other d t cs).
Qed.

(** Claim C5, as amended: the hook returns normally when the task is
    absent or terminal, and otherwise when the payload carries a status
    key, its byte counts are numbers (or missing) and the filename, once
    known, is a string, the task record being well formed. *)
Theorem hook_returns_on_wellformed_payload task_id d (tasks : store) :
  (forall t, tasks !! task_id = Some t ->
     terminal t = true \/ (live t = true /\ task_ok t = true /\ payload_ok d = true)) ->
  snd (ProgressHook_call task_id d tasks) = Ok tt.
Proof.
  intros H. unfold ProgressHook_call.
  destruct (tasks !! task_id) as [t|] eqn:Ht; [|reflexivity].
  destruct (H t eq_refl) as [Hfin | (Hlive & Hok & Hd)].
  - by rewrite hook_body_terminal.
  - pose proof (hook_body_ok d t Hlive Hok Hd) as Hr.
    destruct (hook_body d t). exact Hr.
Qed.

Lemma hook_returns_on_wellformed_payload_witness :
  snd (ProgressHook_call "t1" (payload_downloading 1 3) seeded) = Ok tt.
Proof.
  apply hook_returns_on_wellformed_payload.
  intros t Ht. right.
  unfold seeded in Ht. rewrite lookup_insert_eq in Ht. injection Ht as <-.
  repeat split; vm_compute; reflexivity.
Defined.

(** ** ['downloading'] callbacks *)

(** Claim C6, counterexample: for one byte downloaded of three the record
    holds 33.3, which is not downloaded/total*100. *)
Lemma stored_percentage_is_rounded :
  ~ (exists p, spec_percentage (payload_downloading 1 3) = Ok p
               /\ percentage_of (fst (hook_body (payload_downloading 1 3) initial_task))
                  = Some p).
Proof.
  intros (p & Hspec & Hhook). vm_compute in Hspec, Hhook. congruence.
Qed.

Lemma hook_percentage_unknown_total d :
  py_gt0 (payload_total d) = Ok false -> hook_percentage d = Ok (PInt 0).
Proof. unfold hook_percentage, spec_percentage. by intros ->. Qed.

(** Claim C6, as amended: a ['downloading'] callback on a live task, with
    byte counts that are numbers or missing, sets the status, stores the
    percentage downloaded/total*100 rounded to one decimal (0 when the
    total is unknown or not positive), copies speed, eta and the total's
    display string from the payload (['N/A'] when missing) with both byte
    counts, and leaves the other fields alone. *)
Theorem downloading_callback_sets_progress (d t : dict) :
  live t = true ->
  dict_lookup d "status" = Some (PStr "downloading") ->
  counts_ok d = true ->
  exists pct t',
    hook_percentage d = Ok pct
    /\ hook_body d t = (t', Ok tt)
    /\ dict_lookup t' "status" = Some (PStr "downloading")
    /\ dict_lookup t' "progress"
       = Some (PDict [ ("percentage", pct);
                       ("speed", dict_get d "_speed_str" (PStr "N/A"));
                       ("eta", dict_get d "_eta_str" (PStr "N/A"));
                       ("total_bytes", payload_total d);
                       ("total_bytes_string", dict_get d "_total_bytes_str" (PStr "N/A"));
                       ("downloaded_bytes", dict_get d "downloaded_bytes" (PInt 0)) ])
    /\ (forall k, k <> "status" -> k <> "progress" -> dict_lookup t' k = dict_lookup t k)
    /\ (py_gt0 (payload_total d) = Ok false -> pct = PInt 0).
Proof.
  intros Hlive Hkind Hcounts.
  destruct (hook_percentage_ok _ Hcounts) as [pct Hpct].
  exists pct. eexists. split; [done|]. split.
  { rewrite hook_body_downloading, downloading_progress_eq, Hpct by done. reflexivity. }
  split; [|split; [|split]].
  - rewrite dict_lookup_set_ne by done. apply dict_lookup_set_eq.
  - apply dict_lookup_set_eq.
  - intros k H1 H2. by rewrite !dict_lookup_set_ne.
  - intros H0. rewrite (hook_percentage_unknown_total _ H0) in Hpct. congruence.
Qed.

Lemma downloading_callback_sets_progress_witness :
  exists pct t',
    hook_percentage (payload_downloading 1 3) = Ok pct
    /\ hook_body (payload_downloading 1 3) initial_task = (t', Ok tt)
    /\ dict_lookup t' "status" = Some (PStr "downloading")
    /\ dict_lookup t' "progress"
       = Some (PDict [ ("percentage", pct);
                       ("speed", PStr "N/A"); ("eta", PStr "N/A");
                       ("total_bytes", PInt 3);
                       ("total_bytes_string", PStr "N/A");
                       ("downloaded_bytes", PInt 1) ])
    /\ (forall k, k <> "status" -> k <> "progress" ->
          dict_lookup t' k = dict_lookup initial_task k)
    /\ (py_gt0 (payload_total (payload_downloading 1 3)) = Ok false -> pct = PInt 0).
Proof.
  apply (downloading_callback_sets_progress (payload_downloading 1 3) initial_task);
    vm_compute; reflexivity.
Defined.

Lemma downloading_callback_step (d t : dict) :
  live t = true ->
  dict_lookup d "status" = Some (PStr "downloading") ->
  counts_ok d = true ->
  exists pct,
    hook_percentage d = Ok pct
    /\ live (fst (hook_body d t)) = true
    /\ percentage_of (fst (hook_body d t)) = Some pct.
Proof.
  intros Hlive Hkind Hcounts.
  destruct (hook_percentage_ok _ Hcounts) as [pct Hpct]. exists pct.
  split; [done|].
  rewrite hook_body_downloading, downloading_progress_eq, Hpct by done. simpl.
  unfold live, percentage_of.
  rewrite (dict_lookup_set_ne _ "progress" "status") by done.
  by rewrite !dict_lookup_set_eq.
Qed.

(** Claim C9, counterexample: two ['downloading'] callbacks, 50 of 100
    bytes and then 10 of 100, leave percentages 50.0 and then 10.0. *)
Lemma percentage_can_decrease :
  nondecreasing
    (observed_percentages [payload_downloading 50 100; payload_downloading 10 100]
       (dict_set initial_task "status" (PStr "downloading"))) = false.
Proof. vm_compute. reflexivity. Qed.

(** Claim C9, as amended: across ['downloading'] callbacks the percentage
    of the record is, after each callback, the one computed from that
    callback's payload alone; it is non-decreasing whenever the payloads'
    percentages are. *)
Theorem percentage_follows_payloads (ds : list dict) (t : dict) :
  live t = true ->
  Forall (fun d => dict_lookup d "status" = Some (PStr "downloading")
                   /\ counts_ok d = true) ds ->
  observed_percentages ds t = payload_percentages ds
  /\ (nondecreasing (payload_percentages ds) = true ->
      nondecreasing (observed_percentages ds t) = true).
Proof.
  intros Hlive Hds.
  assert (Heq : observed_percentages ds t = payload_percentages ds).
  { revert t Hlive. induction Hds as [|d ds [Hkind Hcounts] _ IH]; intros t Hlive.
    - reflexivity.
    - destruct (downloading_callback_step d t Hlive Hkind Hcounts)
        as (pct & Hpct & Hlive' & Hobs).
      unfold observed_percentages, payload_percentages in *. simpl.
      rewrite Hobs, Hpct. f_equal. by apply IH. }
  split; [done | by rewrite Heq].
Qed.

Lemma percentage_follows_payloads_witness :
  observed_percentages [payload_downloading 50 100; payload_downloading 100 100]
    initial_task
  = payload_percentages [payload_downloading 50 100; payload_downloading 100 100]
  /\ (nondecreasing
        (payload_percentages [payload_downloading 50 100; payload_downloading 100 100])
      = true ->
      nondecreasing
        (observed_percentages [payload_downloading 50 100; payload_downloading 100 100]
           initial_task) = true).
Proof.
  apply (percentage_follows_payloads
           [payload_downloading 50 100; payload_downloading 100 100] initial_task).
  - vm_compute. reflexivity.
  - repeat constructor.
Defined.

(** ** ['finished'] callbacks *)

(** Claim C10: a ['finished'] callback on a live task sets the status; a
    callback without a filename keeps the recorded one; a known filename
    gives [download_url] = "/api/files/" + its basename; with no filename
    from either source [download_url] stays as it was. *)
Theorem finished_callback_filename_and_url (d t : dict) :
  live t = true ->
  dict_lookup d "status" = Some (PStr "finished") ->
  absent_or is_dict t "progress" = true ->
  let recorded := dict_get t "filename" PNone in
  let final_filename := py_or (dict_get d "filename" PNone) recorded in
  falsy_or is_str final_filename = true ->
  exists t',
    hook_body d t = (t', Ok tt)
    /\ dict_lookup t' "status" = Some (PStr "finished")
    /\ dict_lookup t' "filename" = Some final_filename
    /\ (truthy (dict_get d "filename" PNone) = false -> final_filename = recorded)
    /\ (forall s, final_filename = PStr s -> s <> "" ->
          dict_lookup t' "download_url" = Some (PStr ("/api/files/" +:+ basename s)))
    /\ (truthy final_filename = false ->
          dict_lookup t' "download_url" = dict_lookup t "download_url")
    /\ percentage_of t' = Some (PInt 100).
Proof.
  intros Hlive Hkind Hprog recorded ff Hff.
  rewrite hook_body_finished by done. fold recorded. fold ff.
  assert (Hurl : (if truthy ff then b ← py_basename ff; Ok (Some ("/api/files/" +:+ b))
                  else Ok None)
                 = Ok (if truthy ff
                       then match ff with
                            | PStr s => Some ("/api/files/" +:+ basename s)
                            | _ => None
                            end
                       else None)).
  { unfold falsy_or in Hff. destruct (truthy ff); [|done].
    destruct ff; try discriminate. reflexivity. }
  rewrite Hurl. cbv zeta.
  set (url := if truthy ff then _ else None).
  assert (Hp : absent_or is_dict (finished_core t ff url) "progress" = true).
  { unfold absent_or, finished_core in *.
    destruct url; rewrite !dict_lookup_set_ne by done; done. }
  destruct (progress_setitem_ok _ Hp) as [kv Hkv]. rewrite Hkv. simpl.
  eexists. split; [reflexivity|].
  assert (Hcore_status : dict_lookup (finished_core t ff url) "status" = Some (PStr "finished")).
  { unfold finished_core. destruct url; rewrite !dict_lookup_set_ne by done;
      apply dict_lookup_set_eq. }
  assert (Hcore_fn : dict_lookup (finished_core t ff url) "filename" = Some ff).
  { unfold finished_core. destruct url; rewrite ?dict_lookup_set_ne by done;
      apply dict_lookup_set_eq. }
  split; [by rewrite dict_lookup_set_ne|].
  split; [by rewrite dict_lookup_set_ne|].
  split; [|split; [|split]].
  - intros Hd. subst ff. unfold py_or. by rewrite Hd.
  - intros s Hs Hne. rewrite dict_lookup_set_ne by done.
    subst url. rewrite Hs. simpl.
    destruct (String.eqb_spec s ""); [done|]. simpl.
    unfold finished_core. apply dict_lookup_set_eq.
  - intros Hfalse. rewrite dict_lookup_set_ne by done.
    subst url. rewrite Hfalse. unfold finished_core.
    by rewrite !dict_lookup_set_ne.
  - unfold percentage_of. rewrite dict_lookup_set_eq. apply dict_lookup_set_eq.
Qed.

Lemma finished_callback_filename_and_url_witness :
  exists t',
    hook_body [("status", PStr "finished")] snap_full = (t', Ok tt)
    /\ dict_lookup t' "status" = Some (PStr "finished")
    /\ dict_lookup t' "filename" = Some (PStr "clip.mp4")
    /\ (truthy PNone = false -> PStr "clip.mp4" = PStr "clip.mp4")
    /\ (forall s, PStr "clip.mp4" = PStr s -> s <> "" ->
          dict_lookup t' "download_url" = Some (PStr ("/api/files/" +:+ basename s)))
    /\ (truthy (PStr "clip.mp4") = false ->
          dict_lookup t' "download_url" = dict_lookup snap_full "download_url")
    /\ percentage_of t' = Some (PInt 100).
Proof.
  apply (finished_callback_filename_and_url [("status", PStr "finished")] snap_full);
    vm_compute; reflexivity.
Defined.

(** ** The final check of the runner *)

Lemma append_nonempty_r a b : b <> "" -> a +:+ b <> "".
Proof. destruct a; simpl; [done | discriminate]. Qed.

Lemma path_join_nonempty a b : b <> "" -> path_join a b <> "".
Proof.
  intros Hb. unfold path_join.
  destruct (String.prefix "/" b); [done|].
  destruct (_ || _).
  - by apply append_nonempty_r.
  - apply append_nonempty_r. by destruct "/"%string.
Qed.

Lemma check_body_file_there t tf tp :
  live t = true -> tp <> "" ->
  check_body tf tp true t =
  let t4 := backfilled t tf in
  match py_setitem (dict_get t4 "progress" PNone) "percentage" (PInt 100) with
  | Ok p => (dict_set t4 "progress" p, Ok tt)
  | Raise e => (t4, Raise e)
  end.
Proof.
  intros (st & Hst & Hnf)%live_status Htp. unfold check_body. run_prog.
  rewrite Hst, Hnf.
  destruct (String.eqb_spec tp ""); [done|]. simpl.
  unfold backfilled.
  set (t1 := dict_set t "status" (PStr "finished")).
  destruct (truthy (dict_get t1 "filename" PNone)); simpl.
  all: match goal with |- context [truthy (dict_get ?t2 "download_url" PNone)] =>
         destruct (truthy (dict_get t2 "download_url" PNone)); simpl end.
  all: match goal with |- context [dict_mem ?t3 "progress"] =>
         let E := fresh "E" in
         destruct (dict_mem t3 "progress") eqn:E; simpl;
         unfold dict_mem, dict_get in *end.
  all: rewrite ?dict_lookup_set_eq.
  all: try match goal with |- context [dict_lookup ?t3 "progress"] =>
         destruct (dict_lookup t3 "progress") as [[]|]; try done end.
  all: reflexivity.
Qed.

Lemma check_body_file_missing t tf tp ex :
  live t = true -> negb (String.eqb tp "") && ex = false ->
  check_body tf tp ex t =
  (dict_set (dict_set t "status" (PStr "error")) "error_message"
     (PStr check_error_message), Ok tt).
Proof.
  intros (st & Hst & Hnf)%live_status Hex. unfold check_body. run_prog.
  rewrite Hst, Hnf, Hex. reflexivity.
Qed.

Lemma backfilled_lookup t tf k :
  k <> "status" -> k <> "filename" -> k <> "download_url" -> k <> "progress" ->
  dict_lookup (backfilled t tf) k = dict_lookup t k.
Proof.
  intros. unfold backfilled. cbv zeta.
  repeat match goal with
         | |- context [if ?b then _ else _] => destruct b
         end; by rewrite ?dict_lookup_set_ne.
Qed.

Lemma backfilled_status t tf :
  dict_lookup (backfilled t tf) "status" = Some (PStr "finished").
Proof.
  unfold backfilled. cbv zeta.
  repeat match goal with
         | |- context [if ?b then _ else _] => destruct b
         end; rewrite ?dict_lookup_set_ne by done; apply dict_lookup_set_eq.
Qed.

Lemma backfilled_filename t tf :
  dict_lookup (backfilled t tf) "filename"
  = Some (if truthy (dict_get t "filename" PNone) then dict_get t "filename" PNone
          else PStr tf).
Proof.
  unfold backfilled. cbv zeta.
  rewrite (dict_get_set_ne t "status" "filename") by done.
  destruct (truthy (dict_get t "filename" PNone)) eqn:Hfn.
  - assert (dict_lookup t "filename" = Some (dict_get t "filename" PNone)) as Hl.
    { unfold dict_get in *. by destruct (dict_lookup t "filename"). }
    repeat match goal with
           | |- context [if ?b then _ else _] => destruct b
           end; by rewrite ?dict_lookup_set_ne by done.
  - repeat match goal with
           | |- context [if ?b then _ else _] => destruct b
           end; rewrite ?dict_lookup_set_ne by done; apply dict_lookup_set_eq.
Qed.

Lemma backfilled_download_url t tf :
  dict_lookup (backfilled t tf) "download_url"
  = Some (if truthy (dict_get t "download_url" PNone) then dict_get t "download_url" PNone
          else PStr ("/api/files/" +:+ basename tf)).
Proof.
  unfold backfilled. cbv zeta.
  set (t1 := dict_set t "status" (PStr "finished")).
  set (t2 := if truthy (dict_get t1 "filename" PNone) then t1 else _).
  assert (Hget : dict_get t2 "download_url" PNone = dict_get t "download_url" PNone).
  { subst t2 t1. destruct (truthy _); by rewrite !dict_get_set_ne. }
  rewrite Hget.
  destruct (truthy (dict_get t "download_url" PNone)) eqn:Hu.
  - assert (dict_lookup t2 "download_url" = Some (dict_get t "download_url" PNone)) as Hl.
    { rewrite <- Hget in Hu |- *. unfold dict_get in *.
      by destruct (dict_lookup t2 "download_url"). }
    destruct (dict_mem t2 "progress"); by rewrite ?dict_lookup_set_ne.
  - destruct (dict_mem _ "progress"); rewrite ?dict_lookup_set_ne by done;
      apply dict_lookup_set_eq.
Qed.

Lemma backfilled_progress t tf :
  absent_or is_dict t "progress" = true ->
  exists kv, dict_get (backfilled t tf) "progress" PNone = PDict kv.
Proof.
  intros Hp. unfold backfilled. cbv zeta.
  set (t1 := dict_set t "status" (PStr "finished")).
  set (t2 := if truthy (dict_get t1 "filename" PNone) then t1 else _).
  set (t3 := if truthy (dict_get t2 "download_url" PNone) then t2 else _).
  assert (H3 : dict_lookup t3 "progress" = dict_lookup t "progress").
  { subst t3 t2 t1. repeat destruct (truthy _); by rewrite !dict_lookup_set_ne. }
  unfold absent_or in Hp. unfold dict_mem. rewrite H3.
  destruct (dict_lookup t "progress") as [v|] eqn:Hl; unfold dict_get.
  - rewrite H3. destruct v; try done. eauto.
  - rewrite dict_lookup_set_eq. eauto.
Qed.

(** Claim C4: when the worker has returned and the task is live, the final
    check leaves a terminal record: ['finished'] with filename and
    download_url filled where they were missing and percentage 100 if the
    file exists, ['error'] with its message otherwise. *)
Theorem consistency_check_finalizes task_id target_filename DOWNLOAD_FOLDER
    (exists_ : bool) (tasks : store) (t : dict) :
  tasks !! task_id = Some t ->
  live t = true ->
  absent_or is_dict t "progress" = true ->
  target_filename <> "" ->
  exists t',
    consistency_check task_id target_filename
      (path_join DOWNLOAD_FOLDER target_filename) exists_ tasks
    = (<[task_id := t']> tasks, Ok tt)
    /\ terminal t' = true
    /\ if exists_ then
         dict_lookup t' "status" = Some (PStr "finished")
         /\ dict_lookup t' "filename"
            = Some (if truthy (dict_get t "filename" PNone)
                    then dict_get t "filename" PNone else PStr target_filename)
         /\ dict_lookup t' "download_url"
            = Some (if truthy (dict_get t "download_url" PNone)
                    then dict_get t "download_url" PNone
                    else PStr ("/api/files/" +:+ basename target_filename))
         /\ percentage_of t' = Some (PInt 100)
       else
         dict_lookup t' "status" = Some (PStr "error")
         /\ dict_lookup t' "error_message" = Some (PStr check_error_message).
Proof.
  intros Ht Hlive Hprog Htf.
  pose proof (path_join_nonempty DOWNLOAD_FOLDER _ Htf) as Htp.
  unfold consistency_check. rewrite Ht.
  destruct exists_.
  - rewrite check_body_file_there by done. cbv zeta.
    destruct (backfilled_progress t target_filename Hprog) as [kv ->]. simpl.
    eexists. split; [reflexivity|].
    assert (Hst : dict_lookup (dict_set (backfilled t target_filename) "progress"
                    (PDict (dict_set kv "percentage" (PInt 100)))) "status"
                  = Some (PStr "finished")).
    { rewrite dict_lookup_set_ne by done. apply backfilled_status. }
    split; [unfold terminal; by rewrite Hst|].
    split; [done|].
    split; [rewrite dict_lookup_set_ne by done; apply backfilled_filename|].
    split; [rewrite dict_lookup_set_ne by done; apply backfilled_download_url|].
    unfold percentage_of. rewrite dict_lookup_set_eq. apply dict_lookup_set_eq.
  - rewrite check_body_file_missing by (done || apply andb_false_r).
    eexists. split; [reflexivity|].
    assert (Hst : dict_lookup (dict_set (dict_set t "status" (PStr "error"))
                    "error_message" (PStr check_error_message)) "status"
                  = Some (PStr "error")).
    { rewrite dict_lookup_set_ne by done. apply dict_lookup_set_eq. }
    split; [unfold terminal; by rewrite Hst|].
    split; [done | apply dict_lookup_set_eq].
Qed.

Lemma consistency_check_finalizes_witness :
  exists t',
    consistency_check "t1" "clip.mp4" (path_join "/srv/app/downloads" "clip.mp4") true
      (<["t1" := snap_full]> ∅)
    = (<["t1" := t']> (<["t1" := snap_full]> ∅), Ok tt)
    /\ terminal t' = true
    /\ (dict_lookup t' "status" = Some (PStr "finished")
        /\ dict_lookup t' "filename"
           = Some (if truthy (dict_get snap_full "filename" PNone)
                   then dict_get snap_full "filename" PNone else PStr "clip.mp4")
        /\ dict_lookup t' "download_url"
           = Some (if truthy (dict_get snap_full "download_url" PNone)
                   then dict_get snap_full "download_url" PNone
                   else PStr ("/api/files/" +:+ basename "clip.mp4"))
        /\ percentage_of t' = Some (PInt 100)).
Proof.
  apply (consistency_check_finalizes "t1" "clip.mp4" "/srv/app/downloads" true
           (<["t1" := snap_full]> ∅) snap_full).
  - apply lookup_insert_eq.
  - vm_compute. reflexivity.
  - vm_compute. reflexivity.
  - discriminate.
Defined.

(** ** Submitting a download *)



(** ** The progress stream *)

Section StreamFacts.
Variable json_dumps : pyval -> result string.
Variable task_id : string.

Lemma poll_present last (tasks : store) t js st :
  tasks !! task_id = Some t -> t <> [] ->
  json_dumps (PDict t) = Ok js -> dict_lookup t "status" = Some st ->
  poll json_dumps task_id last tasks
  = (if bool_decide (Some js = last) then [] else [Data js],
     Some js, negb (in_final st)).
Proof.
  intros Ht Hne Hjs Hst. unfold poll. rewrite Ht.
  destruct t as [|kv t]; [done|]. rewrite Hjs.
  unfold dict_getitem. rewrite Hst.
  destruct (bool_decide_reflect (Some js = last)) as [<-|]; reflexivity.
Qed.

Lemma stream_absent last (tasks : store) rest :
  tasks !! task_id = None ->
  event_stream_from json_dumps task_id last (tasks :: rest) = ([NotFound], true).
Proof. intros Ht. simpl. unfold poll. rewrite Ht. reflexivity. Qed.

Lemma stream_terminal last (tasks : store) rest t js :
  tasks !! task_id = Some t -> t <> [] ->
  json_dumps (PDict t) = Ok js -> terminal t = true ->
  event_stream_from json_dumps task_id last (tasks :: rest)
  = (if bool_decide (Some js = last) then [] else [Data js], true).
Proof.
  intros Ht Hne Hjs Hfin. unfold terminal in Hfin.
  destruct (dict_lookup t "status") as [st|] eqn:Hst; [|done].
  simpl. rewrite (poll_present last tasks t js st) by done.
  rewrite Hfin. reflexivity.
Qed.

Lemma stream_live last (tasks : store) rest t js :
  tasks !! task_id = Some t -> t <> [] ->
  json_dumps (PDict t) = Ok js -> live t = true ->
  event_stream_from json_dumps task_id last (tasks :: rest)
  = let '(more, closed) := event_stream_from json_dumps task_id (Some js) rest in
    (((if bool_decide (Some js = last) then [] else [Data js]) ++ more)%list, closed).
Proof.
  intros Ht Hne Hjs (st & Hst & Hnf)%live_status.
  simpl. rewrite (poll_present last tasks t js st) by done.
  rewrite Hnf. reflexivity.
Qed.

(** Polls that find the record just sent yield nothing. *)
Lemma stream_unchanged n t js polls rest :
  t <> [] -> json_dumps (PDict t) = Ok js -> live t = true ->
  observes task_id polls (repeat t n) ->
  event_stream_from json_dumps task_id (Some js) (polls ++ rest)%list
  = event_stream_from json_dumps task_id (Some js) rest.
Proof.
  intros Hne Hjs Hlive. revert polls.
  induction n as [|n IH]; intros polls Hobs; simpl in Hobs.
  - apply Forall2_nil_inv_r in Hobs as ->. reflexivity.
  - apply Forall2_cons_inv_r in Hobs as (tasks & polls' & Ht & Hobs & ->).
    rewrite <- app_comm_cons, (stream_live _ tasks _ t js) by done.
    rewrite IH by done. rewrite bool_decide_eq_true_2 by done.
    by destruct (event_stream_from _ _ _ rest).
Qed.

(** The stream over a run of records, each polled at least once. *)
Lemma stream_stutter records js : forall last repeats polls later t_end j_end,
  Forall2 (fun t j => t <> [] /\ live t = true /\ json_dumps (PDict t) = Ok j)
    records js ->
  t_end <> [] -> terminal t_end = true -> json_dumps (PDict t_end) = Ok j_end ->
  fresh_chain last (js ++ [j_end])%list ->
  observes task_id polls (stutter (records ++ [t_end])%list repeats) ->
  event_stream_from json_dumps task_id last (polls ++ later)%list
  = (map Data (js ++ [j_end])%list, true).
Proof.
  intros last repeats polls later t_end j_end Hrec Hne Hfin Hjend.
  revert last repeats polls.
  induction Hrec as [|t j records js (Htne & Hlive & Hj) _ IH];
    intros last repeats polls Hchain Hobs.
  - simpl in *. destruct Hchain as [Hfresh _].
    apply Forall2_cons_inv_r in Hobs as (tasks & polls' & Ht & _ & ->).
    rewrite <- app_comm_cons, (stream_terminal _ tasks _ t_end j_end) by done.
    by rewrite bool_decide_eq_false_2.
  - simpl in Hobs, Hchain. destruct Hchain as [Hfresh Hchain].
    apply Forall2_cons_inv_r in Hobs as (tasks & polls' & Ht & Hobs & ->).
    apply Forall2_app_inv_r in Hobs as (same & next & Hsame & Hnext & ->).
    rewrite <- app_comm_cons, (stream_live _ tasks _ t j) by done.
    rewrite <- app_assoc, (stream_unchanged _ t j same) by done.
    rewrite (IH _ _ _ Hchain Hnext).
    by rewrite bool_decide_eq_false_2.
Qed.

End StreamFacts.

Lemma NoDup_fresh_chain (js : list string) :
  NoDup js -> fresh_chain None js.
Proof.
  assert (H : forall last, match last with Some j => j ∉ js | None => True end ->
                           NoDup js -> fresh_chain last js).
  { induction js as [|j js IH]; intros last Hlast Hnd; simpl; [done|].
    apply NoDup_cons in Hnd as [Hj Hnd]. split.
    - destruct last as [j'|]; [|done]. intros [= ->]. apply Hlast. by left.
    - by apply IH. }
  by apply H.
Qed.

(** Claim C8: a poll yields the snapshot only when its serialization
    differs from the last one sent and goes on unless the status is
    terminal; a terminal snapshot ends the stream; an absent task yields
    one not-found frame and ends it; and for the six records of the
    scenario, each found by at least one poll and serialized differently,
    the stream yields exactly these six frames in order and closes. *)
Theorem progress_stream_contract (json_dumps : pyval -> result string) (task_id : string) :
  (forall last (tasks : store) t js st,
      tasks !! task_id = Some t -> t <> [] ->
      json_dumps (PDict t) = Ok js -> dict_lookup t "status" = Some st ->
      poll json_dumps task_id last tasks
      = (if bool_decide (Some js = last) then [] else [Data js],
         Some js, negb (in_final st)))
  /\ (forall last (tasks : store) rest t js,
        tasks !! task_id = Some t -> t <> [] ->
        json_dumps (PDict t) = Ok js -> terminal t = true ->
        event_stream_from json_dumps task_id last (tasks :: rest)
        = (if bool_decide (Some js = last) then [] else [Data js], true))
  /\ (forall last (tasks : store) rest,
        tasks !! task_id = None ->
        event_stream_from json_dumps task_id last (tasks :: rest) = ([NotFound], true))
  /\ (forall js repeats polls later,
        Forall2 (fun t j => json_dumps (PDict t) = Ok j) scenario js ->
        NoDup js ->
        observes task_id polls (stutter scenario repeats) ->
        event_stream json_dumps task_id (polls ++ later)%list = (map Data js, true)
        /\ length js = 6%nat).
Proof.
  split; [|split; [|split]].
  - apply poll_present.
  - apply stream_terminal.
  - apply stream_absent.
  - intros js repeats polls later Hjs Hnd Hobs.
    pose proof (Forall2_length _ _ _ Hjs) as Hlen.
    split; [|by rewrite <- Hlen].
    destruct js as [|j1 [|j2 [|j3 [|j4 [|j5 [|j6 [|]]]]]]]; try discriminate.
    unfold scenario in Hjs.
    repeat match goal with
           | H : Forall2 _ (_ :: _) (_ :: _) |- _ =>
               apply Forall2_cons_1 in H as [? H]
           end.
    unfold event_stream.
    apply (stream_stutter json_dumps task_id
             [snap_pending; snap_fetching; snap_preparing; snap_half; snap_full]
             [j1; j2; j3; j4; j5] None repeats polls later snap_finished j6).
    + repeat constructor; try done; vm_compute; reflexivity.
    + done.
    + vm_compute. reflexivity.
    + done.
    + by apply NoDup_fresh_chain.
    + exact Hobs.
Qed.

Lemma progress_stream_contract_witness :
  event_stream json_dumps_lite "t1" (scenario_polls ++ [seeded])%list
  = (map Data scenario_json, true)
  /\ length scenario_json = 6%nat.
Proof.
  apply (proj2 (proj2 (proj2 (progress_stream_contract json_dumps_lite "t1")))
           scenario_json [1; 0; 2; 0; 0; 3]%nat scenario_polls [seeded]).
  - let js := eval vm_compute in scenario_json in change scenario_json with js.
    unfold scenario.
    repeat (constructor; [vm_compute; reflexivity|]). constructor.
  - let js := eval vm_compute in scenario_json in change scenario_json with js.
    repeat (constructor; [rewrite ?elem_of_cons, elem_of_nil; intuition discriminate|]).
    constructor.
  - unfold scenario_polls, observes.
    apply Forall2_fmap_l, Forall_Forall2_diag, Forall_forall.
    intros t _. apply lookup_insert_eq.
Defined.

(** * Further properties of the code *)

(** ** [sanitize_filename] *)

Section Sanitize.

Implicit Types s p : ustr.

Lemma collapse_from_Forall (P : N -> Prop) b s :
  P 32%N -> Forall P s -> Forall P (collapse_from b s).
Proof.
  intros H32 Hs. revert b. induction Hs as [|c s Hc _ IH]; intros b; simpl; [done|].
  destruct (is_space c); [destruct b|]; auto.
Qed.

Lemma lstrip_Forall (P : N -> Prop) s : Forall P s -> Forall P (lstrip s).
Proof.
  induction 1 as [|c s Hc Hs IH]; simpl; [done|].
  destruct (is_space c); auto.
Qed.

Lemma rstrip_Forall (P : N -> Prop) s : Forall P s -> Forall P (rstrip s).
Proof.
  induction 1 as [|c s Hc Hs IH]; simpl; [done|].
  destruct (rstrip s); [destruct (is_space c)|]; auto.
Qed.

Lemma clean_Forall (P : N -> Prop) s :
  P 32%N -> Forall P (remove_forbidden s) -> Forall P (clean s).
Proof.
  intros. unfold clean, strip, collapse_spaces.
  by apply rstrip_Forall, lstrip_Forall, collapse_from_Forall.
Qed.

Lemma slice_to_Forall (P : N -> Prop) s k : Forall P s -> Forall P (slice_to s k).
Proof. intros. unfold slice_to. destruct (0 <=? k); by apply Forall_take. Qed.

Lemma slice_from_Forall (P : N -> Prop) s k : Forall P s -> Forall P (slice_from s k).
Proof. intros. by apply Forall_drop. Qed.

Lemma splitext_Forall (P : N -> Prop) p :
  Forall P p -> Forall P (splitext p).1 /\ Forall P (splitext p).2.
Proof.
  intros Hp. unfold splitext. destruct (_ && _); simpl.
  - split; [by apply slice_to_Forall | by apply slice_from_Forall].
  - by split.
Qed.

Lemma shorten_Forall (P : N -> Prop) s :
  P 46%N -> Forall P s -> Forall P (shorten s).
Proof.
  intros Hdot Hs. unfold shorten. destruct (max_len <? _); [|done].
  destruct (splitext_Forall P s Hs) as [Hn He].
  destruct (splitext s) as [n e]; simpl in Hn, He.
  apply Forall_app_2; [by apply slice_to_Forall|].
  apply Forall_app_2; [|done].
  change (codes "...") with [46; 46; 46]%N. by repeat constructor.
Qed.

(** Every character of the result satisfies what the kept characters of
    the input, the space, the dot and the default name satisfy. *)
Lemma sanitize_Forall (P : N -> Prop) s :
  P 32%N -> P 46%N -> Forall P (codes "downloaded_file") ->
  Forall P (remove_forbidden s) -> Forall P (sanitize_filename s).
Proof.
  intros H32 H46 Hdef Hs. unfold sanitize_filename.
  pose proof (shorten_Forall P _ H46 (clean_Forall P s H32 Hs)) as H.
  by destruct (shorten (clean s)).
Qed.

Lemma remove_forbidden_clean s :
  Forall (fun c => forbidden c = false) (remove_forbidden s).
Proof.
  unfold remove_forbidden. apply Forall_forall. intros c Hc.
  apply list_elem_of_In, filter_In in Hc as [_ Hc].
  by destruct (forbidden c).
Qed.

(** Property X1.
    The result is a usable file name whatever the title: it is never
    empty, and none of its characters is one the first pattern deletes, so
    it holds no slash and no backslash. *)
Theorem sanitize_filename_safe_name s :
  sanitize_filename s <> []
  /\ Forall (fun c => forbidden c = false) (sanitize_filename s).
Proof.
  split.
  - unfold sanitize_filename. by destruct (shorten (clean s)).
  - apply sanitize_Forall; try done; [by repeat constructor|].
    apply remove_forbidden_clean.
Qed.

(** [splitext] cuts the string in two. *)
Lemma slice_app s k : 0 <= k -> (slice_to s k ++ slice_from s k)%list = s.
Proof.
  intros Hk. unfold slice_to, slice_from.
  destruct (Z.leb_spec 0 k); [|lia]. apply firstn_skipn.
Qed.

Lemma rfind_bound c s : -1 <= rfind c s < Z.of_nat (length s).
Proof.
  induction s as [|x s IH]; simpl; [lia|].
  destruct (Z.leb_spec 0 (rfind c s)); [lia|].
  destruct (N.eqb x c); lia.
Qed.

Lemma splitext_app p : ((splitext p).1 ++ (splitext p).2)%list = p.
Proof.
  unfold splitext.
  destruct (_ && _) eqn:E; simpl; [|apply app_nil_r].
  apply andb_prop in E as [E _]. apply Z.ltb_lt in E.
  apply slice_app. pose proof (rfind_bound 47%N p). lia.
Qed.

Lemma slice_to_length s k : 0 <= k -> (length (slice_to s k) <= Z.to_nat k)%nat.
Proof.
  intros Hk. unfold slice_to. destruct (Z.leb_spec 0 k); [|lia].
  rewrite length_take. lia.
Qed.

Lemma shorten_length p :
  (length (splitext p).2 <= 97)%nat -> (length (shorten p) <= 100)%nat.
Proof.
  intros He. unfold shorten, max_len.
  destruct (Z.ltb_spec 100 (Z.of_nat (length p))); [|lia].
  destruct (splitext p) as [n e]; simpl in He.
  rewrite !length_app.
  pose proof (slice_to_length n (100 - Z.of_nat (length e) - 3)) as Hn.
  change (length (codes "...")) with 3%nat. lia.
Qed.

(** Property X2.
    With an extension of at most 97 characters the result has at most 100. *)
Theorem sanitize_filename_length s :
  (length (splitext (clean s)).2 <= 97)%nat ->
  (length (sanitize_filename s) <= 100)%nat.
Proof.
  intros He. unfold sanitize_filename.
  pose proof (shorten_length _ He) as H.
  destruct (shorten (clean s)); [|done].
  change (length (codes "downloaded_file")) with 15%nat. lia.
Qed.

Lemma sanitize_filename_length_witness :
  (length (sanitize_filename long_title) <= 100)%nat.
Proof.
  apply (sanitize_filename_length long_title). vm_compute. lia.
Defined.

(** *** White space of the result *)

Lemma collapse_spaced b s : spaced_ok b (collapse_from b s) = true.
Proof.
  revert b. induction s as [|c s IH]; intros b; simpl; [done|].
  destruct (is_space c) eqn:Hc.
  - destruct b; [apply IH|]. simpl. rewrite IH. done.
  - simpl. rewrite Hc. apply IH.
Qed.

Lemma lstrip_spaced b s : spaced_ok b s = true -> spaced_ok true (lstrip s) = true.
Proof.
  revert b. induction s as [|c s IH]; intros b; simpl; [done|].
  destruct (is_space c) eqn:Hc.
  - intros H. apply andb_prop in H as [_ H]. by apply (IH true).
  - intros H. simpl. by rewrite Hc.
Qed.

Lemma rstrip_spaced b s : spaced_ok b s = true -> spaced_ok b (rstrip s) = true.
Proof.
  revert b. induction s as [|c s IH]; intros b; simpl; [done|].
  destruct (is_space c) eqn:Hc.
  - intros H. apply andb_prop in H as [H1 H].
    pose proof (IH true H) as IH'.
    destruct (rstrip s) as [|x r]; [done|].
    simpl in *. rewrite Hc, H1. exact IH'.
  - intros H. pose proof (IH false H) as IH'.
    destruct (rstrip s) as [|x r]; simpl in *; rewrite Hc; done.
Qed.

Lemma rstrip_end s : ends_in_space (rstrip s) = false.
Proof.
  induction s as [|c s IH]; simpl; [done|].
  destruct (rstrip s) as [|x r] eqn:E.
  - destruct (is_space c) eqn:Hc; simpl; done.
  - exact IH.
Qed.

Lemma clean_tidy s : tidy (clean s) = true.
Proof.
  unfold tidy, clean, strip, collapse_spaces.
  rewrite rstrip_end, andb_true_r.
  apply rstrip_spaced, (lstrip_spaced false), collapse_spaced.
Qed.

Lemma spaced_ok_app_nonspace b l c r :
  is_space c = false ->
  spaced_ok b (l ++ c :: r) = spaced_ok b l && spaced_ok false r.
Proof.
  intros Hc. revert b. induction l as [|x l IH]; intros b; simpl.
  - by rewrite Hc.
  - destruct (is_space x); [|apply IH].
    rewrite IH. by rewrite !andb_assoc.
Qed.

Lemma spaced_ok_take b n s : spaced_ok b s = true -> spaced_ok b (take n s) = true.
Proof.
  revert b s. induction n as [|n IH]; intros b [|c s]; simpl; try done.
  destruct (is_space c).
  - intros H. apply andb_prop in H as [-> H]. by apply IH.
  - apply IH.
Qed.

Lemma spaced_ok_app_l b l r : spaced_ok b (l ++ r) = true -> spaced_ok b l = true.
Proof.
  revert b. induction l as [|x l IH]; intros b; simpl; [done|].
  destruct (is_space x).
  - intros H. apply andb_prop in H as [-> H]. by apply (IH true).
  - apply IH.
Qed.

Lemma ends_in_space_app l c r :
  ends_in_space (l ++ c :: r) = ends_in_space (c :: r).
Proof.
  induction l as [|x l IH]; [done|].
  change ((x :: l) ++ c :: r)%list with (x :: (l ++ c :: r))%list.
  destruct (l ++ c :: r)%list eqn:E; [by destruct l|].
  rewrite <- E, <- IH. rewrite E. reflexivity.
Qed.

Lemma rfind_nth c s :
  0 <= rfind c s -> exists l r, s = (l ++ c :: r)%list /\ Z.of_nat (length l) = rfind c s.
Proof.
  induction s as [|x s IH]; simpl; [lia|].
  destruct (Z.leb_spec 0 (rfind c s)).
  - intros _. destruct IH as (l & r & -> & Hl); [done|].
    exists (x :: l), r. split; [done|]. simpl length. lia.
  - destruct (N.eqb_spec x c) as [->|]; [|lia].
    intros _. exists [], s. done.
Qed.

(** The extension [splitext] returns is empty or starts with a dot. *)
Lemma splitext_ext p :
  (splitext p).2 = [] \/ exists r, (splitext p).2 = 46%N :: r.
Proof.
  unfold splitext. destruct (_ && _) eqn:E; simpl; [|by left].
  apply andb_prop in E as [E _]. apply Z.ltb_lt in E.
  pose proof (rfind_bound 47%N p).
  destruct (rfind_nth 46%N p) as (l & r & Hp & Hl); [lia|].
  right. exists r. unfold slice_from. rewrite <- Hl, Nat2Z.id.
  rewrite Hp at 1. by rewrite drop_app_length.
Qed.

Lemma shorten_tidy p : tidy p = true -> tidy (shorten p) = true.
Proof.
  intros Hp. unfold shorten. destruct (max_len <? _); [|done].
  pose proof (splitext_app p) as Happ. pose proof (splitext_ext p) as Hext.
  destruct (splitext p) as [n e]; simpl in Happ, Hext.
  unfold tidy in *. apply andb_prop in Hp as [Hsp Hend].
  apply negb_true_iff in Hend.
  change (codes "...") with [46; 46; 46]%N.
  set (k := max_len - _ - 3).
  assert (Hn : spaced_ok true (slice_to n k) = true).
  { unfold slice_to. destruct (0 <=? k); apply spaced_ok_take;
      rewrite <- Happ in Hsp; by apply spaced_ok_app_l in Hsp. }
  destruct Hext as [-> | [r ->]]; cbn [app].
  - rewrite (spaced_ok_app_nonspace true (slice_to n k) 46%N) by done.
    rewrite Hn. simpl.
    by rewrite (ends_in_space_app (slice_to n k) 46%N).
  - rewrite (spaced_ok_app_nonspace true (slice_to n k) 46%N) by done.
    rewrite Hn.
    rewrite <- Happ, spaced_ok_app_nonspace in Hsp by done.
    apply andb_prop in Hsp as [_ Hr]. simpl. rewrite Hr. simpl.
    rewrite <- Happ, ends_in_space_app in Hend.
    rewrite (ends_in_space_app (slice_to n k) 46%N).
    change (ends_in_space (46%N :: 46%N :: 46%N :: 46%N :: r))
      with (ends_in_space (46%N :: r)).
    by rewrite Hend.
Qed.

(** Property X3.
    In the result white space is made of single plain spaces, none of them
    first or last. *)
Theorem sanitize_filename_tidy s : tidy (sanitize_filename s) = true.
Proof.
  unfold sanitize_filename.
  pose proof (shorten_tidy _ (clean_tidy s)) as H.
  destruct (shorten (clean s)); [|done]. vm_compute. reflexivity.
Qed.

(** *** Sanitizing twice *)

Lemma remove_forbidden_id s :
  Forall (fun c => forbidden c = false) s -> remove_forbidden s = s.
Proof.
  unfold remove_forbidden. induction 1 as [|c s Hc _ IH]; simpl; [done|].
  by rewrite Hc, IH.
Qed.

Lemma collapse_id b s : spaced_ok b s = true -> collapse_from b s = s.
Proof.
  revert b. induction s as [|c s IH]; intros b; simpl; [done|].
  destruct (is_space c).
  - intros H. apply andb_prop in H as [H Hs]. apply andb_prop in H as [Hc Hb].
    apply N.eqb_eq in Hc as ->. destruct b; [done|]. by rewrite IH.
  - intros H. by rewrite IH.
Qed.

Lemma spaced_ok_weaken s : spaced_ok true s = true -> spaced_ok false s = true.
Proof.
  destruct s as [|c s]; simpl; [done|].
  destruct (is_space c); [|done]. by rewrite andb_false_r.
Qed.

Lemma lstrip_id s : spaced_ok true s = true -> lstrip s = s.
Proof.
  destruct s as [|c s]; simpl; [done|].
  destruct (is_space c); [|done]. by rewrite andb_false_r.
Qed.

Lemma rstrip_id s : ends_in_space s = false -> rstrip s = s.
Proof.
  induction s as [|c s IH]; [done|].
  destruct s as [|x s].
  - simpl. by intros ->.
  - intros H. change (ends_in_space (x :: s) = false) in H.
    specialize (IH H). simpl in *. by rewrite IH.
Qed.

Lemma clean_id s :
  Forall (fun c => forbidden c = false) s -> tidy s = true -> clean s = s.
Proof.
  intros Hf Ht. unfold tidy in Ht. apply andb_prop in Ht as [Hsp Hend].
  apply negb_true_iff in Hend.
  unfold clean, strip, collapse_spaces.
  rewrite remove_forbidden_id by done.
  rewrite collapse_id by by apply spaced_ok_weaken.
  rewrite lstrip_id by done. by apply rstrip_id.
Qed.

(** Property X4.
    A result of at most 100 characters is a fixed point: sanitizing it
    again changes nothing. *)
Theorem sanitize_filename_idempotent s :
  (length (sanitize_filename s) <= 100)%nat ->
  sanitize_filename (sanitize_filename s) = sanitize_filename s.
Proof.
  intros Hlen.
  assert (Hne : sanitize_filename s <> []).
  { unfold sanitize_filename. by destruct (shorten (clean s)). }
  assert (Hf : Forall (fun c => forbidden c = false) (sanitize_filename s)).
  { apply sanitize_Forall; try done; [by repeat constructor|].
    unfold remove_forbidden. apply Forall_forall. intros c Hc.
    apply list_elem_of_In, filter_In in Hc as [_ Hc]. by destruct (forbidden c). }
  assert (Ht : tidy (sanitize_filename s) = true).
  { unfold sanitize_filename. pose proof (shorten_tidy _ (clean_tidy s)) as H.
    destruct (shorten (clean s)); [|done]. vm_compute. reflexivity. }
  set (r := sanitize_filename s) in *.
  unfold sanitize_filename at 1.
  rewrite clean_id by done.
  unfold shorten, max_len.
  destruct (Z.ltb_spec 100 (Z.of_nat (length r))); [lia|].
  by destruct r.
Qed.

Lemma sanitize_filename_idempotent_witness :
  sanitize_filename (sanitize_filename messy_title) = sanitize_filename messy_title.
Proof.
  apply (sanitize_filename_idempotent messy_title). vm_compute. lia.
Defined.

End Sanitize.

(** ** The hook on the store *)

Lemma hook_call_lookup task_id d (tasks : store) :
  (fst (ProgressHook_call task_id d tasks)) !! task_id
  = (fun t => fst (hook_body d t)) <$> tasks !! task_id.
Proof.
  unfold ProgressHook_call. destruct (tasks !! task_id) as [t|] eqn:Ht; simpl.
  - destruct (hook_body d t). simpl. apply lookup_insert_eq.
  - by rewrite Ht.
Qed.

Lemma hook_call_other task_id d (tasks : store) other :
  other <> task_id ->
  (fst (ProgressHook_call task_id d tasks)) !! other = tasks !! other.
Proof.
  intros Hne. unfold ProgressHook_call.
  destruct (tasks !! task_id) as [t|]; [|done].
  destruct (hook_body d t). simpl. by rewrite lookup_insert_ne.
Qed.

(** Property X5.
    A callback, whatever its payload and however it ends, neither adds nor
    removes a task and leaves the records of all other tasks as they are. *)
Theorem hook_touches_only_its_task task_id d (tasks : store) :
  dom (fst (ProgressHook_call task_id d tasks)) = dom tasks
  /\ forall other, other <> task_id ->
       (fst (ProgressHook_call task_id d tasks)) !! other = tasks !! other.
Proof.
  split; [|intros; by apply hook_call_other].
  apply set_eq. intros k. rewrite !elem_of_dom.
  destruct (decide (k = task_id)) as [->|Hne].
  - rewrite hook_call_lookup. destruct (tasks !! task_id); simpl; split; eauto.
    all: intros [? ?]; done.
  - by rewrite hook_call_other.
Qed.

(** Property X6.
    Callbacks that arrive once the task is terminal, or gone, change
    nothing and do not raise, however many and whatever they carry. *)
Theorem late_callbacks_are_ignored task_id ds (tasks : store) :
  match tasks !! task_id with
  | Some t => terminal t = true
  | None => True
  end ->
  deliver task_id ds tasks = (repeat tasks (length ds), tasks, Ok tt).
Proof.
  intros H. induction ds as [|d ds IH]; simpl; [done|].
  assert (Hcall : ProgressHook_call task_id d tasks = (tasks, Ok tt)).
  { destruct (tasks !! task_id) as [t|] eqn:Ht.
    - by apply (hook_terminal_noop task_id d tasks t).
    - by apply hook_absent_noop. }
  rewrite Hcall, IH. reflexivity.
Qed.

Lemma late_callbacks_are_ignored_witness :
  deliver "t1" [payload_downloading 10 100; payload_finished "x.mp4"; []]
    (<["t1" := failed_record]> ∅)
  = (repeat (<["t1" := failed_record]> ∅) 3, <["t1" := failed_record]> ∅, Ok tt).
Proof.
  apply (late_callbacks_are_ignored "t1"
           [payload_downloading 10 100; payload_finished "x.mp4"; []]
           (<["t1" := failed_record]> ∅)).
  rewrite lookup_insert_eq. vm_compute. reflexivity.
Defined.

(** ** Well-formed records stay well formed *)

Lemma task_ok_status t : task_ok t = true ->
  terminal t = true \/ live t = true.
Proof.
  unfold task_ok, dict_mem, terminal, live. intros H.
  apply andb_prop in H as [H _]. apply andb_prop in H as [H _].
  destruct (dict_lookup t "status") as [st|]; [|done].
  destruct (in_final st); auto.
Qed.

Lemma task_ok_intro t st :
  dict_lookup t "status" = Some st ->
  absent_or is_dict t "progress" = true ->
  absent_or (falsy_or is_str) t "filename" = true ->
  task_ok t = true.
Proof.
  intros Hst Hp Hf. unfold task_ok, dict_mem. by rewrite Hst, Hp, Hf.
Qed.

Lemma task_ok_inv t : task_ok t = true ->
  (exists st, dict_lookup t "status" = Some st)
  /\ absent_or is_dict t "progress" = true
  /\ absent_or (falsy_or is_str) t "filename" = true.
Proof.
  unfold task_ok, dict_mem. intros H.
  apply andb_prop in H as [H Hf]. apply andb_prop in H as [H Hp].
  destruct (dict_lookup t "status") as [st|]; [eauto|done].
Qed.

Lemma final_filename_ok d t :
  absent_or (falsy_or is_str) d "filename" = true ->
  absent_or (falsy_or is_str) t "filename" = true ->
  falsy_or is_str (py_or (dict_get d "filename" PNone) (dict_get t "filename" PNone)) = true.
Proof.
  unfold py_or, absent_or, dict_get. intros Hd Ht.
  destruct (dict_lookup d "filename") as [a|]; simpl.
  - destruct (truthy a) eqn:Ea; [done|].
    destruct (dict_lookup t "filename"); [done | reflexivity].
  - destruct (dict_lookup t "filename"); [done | reflexivity].
Qed.

Lemma hook_body_keeps_ok d t :
  task_ok t = true -> payload_ok d = true ->
  task_ok (fst (hook_body d t)) = true /\ snd (hook_body d t) = Ok tt.
Proof.
  intros Hok Hd.
  destruct (task_ok_status t Hok) as [Hfin|Hlive].
  { by rewrite hook_body_terminal. }
  split; [|by apply hook_body_ok].
  destruct (task_ok_inv t Hok) as ([st Hst] & Hprog & Hfn).
  unfold payload_ok in Hd. apply andb_prop in Hd as [Hd Hdfn].
  apply andb_prop in Hd as [Hdst Hcounts].
  unfold dict_mem in Hdst.
  destruct (dict_lookup d "status") as [cs|] eqn:Hcs; [|done].
  destruct (py_eq_str cs "downloading") eqn:E1.
  { apply py_eq_str_true in E1 as ->.
    rewrite hook_body_downloading, downloading_progress_eq by done.
    destruct (hook_percentage_ok _ Hcounts) as [p ->]. simpl.
    eapply task_ok_intro.
    - rewrite dict_lookup_set_ne by done. apply dict_lookup_set_eq.
    - unfold absent_or. by rewrite dict_lookup_set_eq.
    - unfold absent_or in *. by rewrite !dict_lookup_set_ne. }
  destruct (py_eq_str cs "finished") eqn:E2.
  { apply py_eq_str_true in E2 as ->.
    rewrite hook_body_finished by done.
    pose proof (final_filename_ok d t Hdfn Hfn) as Hff.
    set (ff := py_or _ _) in *.
    assert (Hurl : exists url,
      (if truthy ff then b ← py_basename ff; Ok (Some ("/api/files/" +:+ b))
       else Ok None) = Ok url).
    { unfold falsy_or in Hff. destruct (truthy ff); simpl in *; [|eauto].
      destruct ff; try discriminate. simpl. eauto. }
    destruct Hurl as [url ->]. cbv zeta.
    assert (Hp : absent_or is_dict (finished_core t ff url) "progress" = true).
    { unfold absent_or, finished_core in *.
      destruct url; rewrite !dict_lookup_set_ne by done; done. }
    destruct (progress_setitem_ok _ Hp) as [kv ->]. simpl.
    eapply task_ok_intro.
    - rewrite dict_lookup_set_ne by done. unfold finished_core.
      destruct url; rewrite !dict_lookup_set_ne by done;
        apply dict_lookup_set_eq.
    - unfold absent_or. by rewrite dict_lookup_set_eq.
    - unfold absent_or. rewrite dict_lookup_set_ne by done. unfold finished_core.
      destruct url; rewrite ?dict_lookup_set_ne by done; by rewrite dict_lookup_set_eq. }
  assert (Hprog' : is_dict (dict_get t "progress" (PDict [])) = true).
  { destruct (progress_setitem_ok _ Hprog) as [kv ->]. done. }
  destruct (py_eq_str cs "error") eqn:E3.
  { apply py_eq_str_true in E3 as ->. rewrite hook_body_error by done. simpl.
    eapply task_ok_intro.
    - rewrite !dict_lookup_set_ne by done. apply dict_lookup_set_eq.
    - unfold absent_or. by rewrite dict_lookup_set_eq.
    - unfold absent_or in *. by rewrite !dict_lookup_set_ne. }
  rewrite (hook_body_other d t cs) by done. simpl.
  eapply task_ok_intro.
  - rewrite dict_lookup_set_ne by done. exact Hst.
  - unfold absent_or. by rewrite dict_lookup_set_eq.
  - unfold absent_or in *. by rewrite !dict_lookup_set_ne.
Qed.

(** Property X7.
    A well-formed record stays well formed through any series of
    well-formed payloads, and none of the calls raises. *)
Theorem wellformed_callbacks_never_raise task_id ds (tasks : store) t :
  tasks !! task_id = Some t ->
  task_ok t = true ->
  Forall (fun d => payload_ok d = true) ds ->
  exists trace last t',
    deliver task_id ds tasks = (trace, last, Ok tt)
    /\ length trace = length ds
    /\ last !! task_id = Some t'
    /\ task_ok t' = true.
Proof.
  intros Ht Hok Hds. revert tasks t Ht Hok.
  induction Hds as [|d ds Hd _ IH]; intros tasks t Ht Hok; simpl.
  - exists [], tasks, t. done.
  - destruct (hook_body_keeps_ok d t Hok Hd) as [Hok' Hret].
    unfold ProgressHook_call. rewrite Ht.
    destruct (hook_body d t) as [t1 r] eqn:Hb. simpl in Hok', Hret. subst r.
    destruct (IH (<[task_id := t1]> tasks) t1) as (trace & last & t' & -> & Hlen & Hl & Hk).
    { apply lookup_insert_eq. }
    { done. }
    exists (<[task_id := t1]> tasks :: trace), last, t'.
    repeat split; try done. simpl. by rewrite Hlen.
Qed.

Lemma wellformed_callbacks_never_raise_witness :
  exists trace last t',
    deliver "t1" [payload_downloading 50 100; payload_finished "clip.mp4";
                  payload_downloading 1 0] seeded
    = (trace, last, Ok tt)
    /\ length trace = 3%nat
    /\ last !! "t1" = Some t'
    /\ task_ok t' = true.
Proof.
  apply (wellformed_callbacks_never_raise "t1"
           [payload_downloading 50 100; payload_finished "clip.mp4";
            payload_downloading 1 0] seeded initial_task).
  - apply lookup_insert_eq.
  - vm_compute. reflexivity.
  - repeat constructor.
Defined.

(** ** The status only moves forward *)

Lemma status_rank_set t s :
  status_rank (dict_set t "status" (PStr s)) = status_rank [("status", PStr s)].
Proof. unfold status_rank. by rewrite dict_lookup_set_eq. Qed.

Lemma status_rank_frame t k v :
  k <> "status" -> status_rank (dict_set t k v) = status_rank t.
Proof. intros. unfold status_rank. by rewrite dict_lookup_set_ne. Qed.

Lemma status_rank_le4 t r : status_rank t = Some r -> (r <= 4)%nat.
Proof.
  unfold status_rank. destruct (dict_lookup t "status") as [[]|]; try done.
  repeat match goal with |- context [if ?b then _ else _] => destruct b end;
    intros [= <-]; lia.
Qed.

Lemma status_rank_cases t r :
  status_rank t = Some r ->
  terminal t = true /\ r = 4%nat \/ live t = true /\ (r <= 3)%nat.
Proof.
  unfold status_rank, terminal, live, in_final.
  destruct (dict_lookup t "status") as [[]|]; try done. simpl.
  repeat match goal with |- context [if String.eqb ?a ?b then _ else _] =>
    destruct (String.eqb_spec a b) end; subst; simpl.
  all: try (intros [= <-]; right; split; [reflexivity | lia]).
  all: destruct (String.eqb_spec s "finished"), (String.eqb_spec s "error");
    subst; simpl; try done.
  all: try (intros [= <-]; left; split; reflexivity).
Qed.

Lemma terminal_rank t : terminal t = true -> status_rank t = Some 4%nat.
Proof.
  unfold terminal, status_rank, in_final.
  destruct (dict_lookup t "status") as [[]|]; try done. simpl.
  intros [->%String.eqb_eq | ->%String.eqb_eq]%orb_prop; reflexivity.
Qed.

Lemma rank4_terminal t : status_rank t = Some 4%nat -> terminal t = true.
Proof. intros [[? _]|[_ ?]]%status_rank_cases; [done | lia]. Qed.

Lemma finished_core_rank t ff url : status_rank (finished_core t ff url) = Some 4%nat.
Proof.
  unfold finished_core. destruct url; rewrite !status_rank_frame by done;
    by rewrite status_rank_set.
Qed.

(** Whatever the payload and however the call ends, the hook never moves
    the status of a record back. *)
Lemma hook_body_rank d t r :
  status_rank t = Some r ->
  exists r', status_rank (fst (hook_body d t)) = Some r' /\ (r <= r')%nat.
Proof.
  intros Hr. destruct (status_rank_cases t r Hr) as [[Hfin ->]|[Hlive Hle]].
  { rewrite hook_body_terminal by done. eauto. }
  destruct (dict_lookup d "status") as [cs|] eqn:Hcs.
  2:{ rewrite hook_body_no_status by done. eauto. }
  destruct (py_eq_str cs "downloading") eqn:E1.
  { apply py_eq_str_true in E1 as ->. rewrite hook_body_downloading by done.
    exists 3%nat. split; [|done].
    destruct (downloading_progress d); simpl;
      rewrite ?status_rank_frame by done; by rewrite status_rank_set. }
  pose proof (status_rank_le4 t r Hr) as H4.
  destruct (py_eq_str cs "finished") eqn:E2.
  { apply py_eq_str_true in E2 as ->. rewrite hook_body_finished by done.
    exists 4%nat. split; [|done]. cbv zeta.
    destruct (if truthy _ then _ else _) as [url|e]; cbn [fst].
    - destruct (py_setitem _ _ _); cbn [fst];
        rewrite ?status_rank_frame by done; apply finished_core_rank.
    - apply finished_core_rank. }
  destruct (py_eq_str cs "error") eqn:E3.
  { apply py_eq_str_true in E3 as ->. rewrite hook_body_error by done.
    exists 4%nat. split; [|done]. simpl.
    rewrite !status_rank_frame by done. by rewrite status_rank_set. }
  rewrite (hook_body_other d t cs) by done. simpl.
  exists r. by rewrite status_rank_frame.
Qed.

Lemma check_body_terminal tf tp ex t :
  terminal t = true -> check_body tf tp ex t = (t, Ok tt).
Proof.
  unfold terminal, check_body, mbind, prog_bind, task_getitem, dict_getitem.
  destruct (dict_lookup t "status") as [st|]; [|done].
  by intros ->.
Qed.

(** The final check leaves a record that had a known status in a terminal
    one, also when it raises half way. *)
Lemma check_body_rank tf tp ex t r :
  status_rank t = Some r ->
  status_rank (fst (check_body tf tp ex t)) = Some 4%nat.
Proof.
  intros Hr. destruct (status_rank_cases t r Hr) as [[Hfin ->]|[Hlive Hle]].
  { by rewrite check_body_terminal. }
  destruct (negb (String.eqb tp "") && ex) eqn:Hex.
  - apply andb_prop in Hex as [Htp ->].
    rewrite check_body_file_there; [|done|by destruct (String.eqb_spec tp "")].
    cbv zeta. assert (Hb : status_rank (backfilled t tf) = Some 4%nat).
    { unfold status_rank. by rewrite backfilled_status. }
    destruct (py_setitem _ _ _); simpl; by rewrite ?status_rank_frame.
  - rewrite check_body_file_missing by done. simpl.
    rewrite status_rank_frame by done. by rewrite status_rank_set.
Qed.

Lemma last_cons_default {A} (l : list A) (a d : A) :
  List.last (a :: l) d = List.last l a.
Proof.
  revert a d. induction l as [|b l IH]; intros a d; [done|].
  change (List.last (a :: b :: l) d) with (List.last (b :: l) d).
  by rewrite (IH b d), (IH b a).
Qed.

Section RunnerFacts.
Variable sanitize_filename : string -> string.
Variable py_str : pyval -> string.
Variable DOWNLOAD_FOLDER : string.
Variable task_id : string.

Lemma on_exception_rank e (tasks : store) t :
  tasks !! task_id = Some t ->
  (on_exception e task_id tasks !! task_id ≫= status_rank) = Some 4%nat.
Proof.
  intros Ht. unfold on_exception. rewrite Ht, lookup_insert_eq. simpl.
  rewrite status_rank_frame by done. by rewrite status_rank_set.
Qed.

Lemma on_exception_other e (tasks : store) other :
  other <> task_id -> on_exception e task_id tasks !! other = tasks !! other.
Proof.
  intros Hne. unfold on_exception. destruct (tasks !! task_id); [|done].
  by rewrite lookup_insert_ne.
Qed.

Lemma deliver_ascending ds : forall (s : store) t r calls lst res,
  s !! task_id = Some t -> status_rank t = Some r ->
  deliver task_id ds s = (calls, lst, res) ->
  exists t1 r1, lst !! task_id = Some t1 /\ status_rank t1 = Some r1
    /\ (r <= r1)%nat /\ List.last calls s = lst
    /\ forall rest, ascending_from task_id r1 rest ->
         ascending_from task_id r (calls ++ rest).
Proof.
  induction ds as [|d ds IH]; intros s t r calls lst res Ht Hr; simpl.
  - intros [= <- <- <-]. exists t, r. repeat split; done.
  - unfold ProgressHook_call. rewrite Ht.
    destruct (hook_body_rank d t r Hr) as (r' & Hr' & Hle).
    destruct (hook_body d t) as [t' r0]. simpl in Hr'.
    pose proof (lookup_insert_eq s task_id t') as Ht'.
    destruct r0 as [[]|e].
    + destruct (deliver task_id ds (<[task_id:=t']> s)) as [[tr l0] r1] eqn:Hd.
      intros [= <- <- <-].
      destruct (IH _ _ _ _ _ _ Ht' Hr' Hd) as (t1 & r1' & Hl & Hr1 & Hle1 & Hlast & Hasc).
      exists t1, r1'. repeat split; try done; [lia| |].
      * by rewrite last_cons_default.
      * intros rest Hrest. simpl. exists r'. rewrite Ht'. simpl.
        repeat split; try done. by apply Hasc.
    + intros [= <- <- <-]. exists t', r'. repeat split; try done.
      intros rest Hrest. simpl. exists r'. rewrite Ht'. done.
Qed.

Lemma deliver_other ds other : other <> task_id -> forall (s : store) calls lst res,
  deliver task_id ds s = (calls, lst, res) ->
  lst !! other = s !! other
  /\ Forall (fun s' : store => s' !! other = s !! other) calls.
Proof.
  intros Hne. induction ds as [|d ds IH]; intros s calls lst res; simpl.
  - intros [= <- <- <-]. done.
  - pose proof (hook_call_other task_id d s other Hne) as Ho.
    destruct (ProgressHook_call task_id d s) as [s' r0]. simpl in Ho.
    destruct r0 as [[]|e].
    + destruct (deliver task_id ds s') as [[tr l0] r1] eqn:Hd.
      intros [= <- <- <-]. destruct (IH _ _ _ _ Hd) as [Hl Hf].
      split; [congruence|]. constructor; [done|].
      eapply Forall_impl; [exact Hf|]. simpl. intros; congruence.
    + intros [= <- <- <-]. split; [done|]. by constructor.
Qed.

Lemma consistency_check_rank tf tp ex (s : store) t r s' res :
  s !! task_id = Some t -> status_rank t = Some r ->
  consistency_check task_id tf tp ex s = (s', res) ->
  exists t', s' !! task_id = Some t' /\ status_rank t' = Some 4%nat.
Proof.
  intros Ht Hr. unfold consistency_check. rewrite Ht.
  pose proof (check_body_rank tf tp ex t r Hr) as Hc.
  destruct (check_body tf tp ex t) as [t' r']. intros [= <- <-].
  exists t'. by rewrite lookup_insert_eq.
Qed.

Lemma consistency_check_other tf tp ex (s : store) other :
  other <> task_id ->
  (fst (consistency_check task_id tf tp ex s)) !! other = s !! other.
Proof.
  intros Hne. unfold consistency_check. destruct (s !! task_id) as [t|]; [|done].
  destruct (check_body tf tp ex t). simpl. by rewrite lookup_insert_ne.
Qed.

(** The whole run, stage by stage: the trace ascends from the first write
    and its last store holds a terminal record. *)
Lemma run_shape selected_format w (tasks : store) t :
  tasks !! task_id = Some t ->
  let run := run_download_task sanitize_filename py_str DOWNLOAD_FOLDER
               task_id selected_format w tasks in
  ascending_from task_id 1 run
  /\ exists t', List.last run tasks !! task_id = Some t'
       /\ status_rank t' = Some 4%nat.
Proof.
  intros Ht run. subst run. unfold run_download_task, try_block, locked.
  rewrite Ht.
  set (s1 := <[task_id := dict_set t "status" (PStr "fetching_info")]> tasks).
  assert (H1 : s1 !! task_id = Some (dict_set t "status" (PStr "fetching_info")))
    by apply lookup_insert_eq.
  destruct (extract_info w ≫= _) as [tf|e].
  2:{ simpl. rewrite H1. simpl. rewrite status_rank_set. split.
      - exists 1%nat. repeat split; try done.
        exists 4%nat. rewrite (on_exception_rank e s1 _ H1). repeat split; lia.
      - pose proof (on_exception_rank e s1 _ H1) as Hx.
        destruct (on_exception e task_id s1 !! task_id) as [t'|]; [|done]. eauto. }
  rewrite H1.
  set (t2 := dict_set (dict_set _ "filename" _) "status" (PStr "preparing_download")).
  set (s2 := <[task_id := t2]> s1).
  assert (H2 : s2 !! task_id = Some t2) by apply lookup_insert_eq.
  rewrite H2.
  set (t3 := dict_set t2 "status" (PStr "downloading")).
  set (s3 := <[task_id := t3]> s2).
  assert (H3 : s3 !! task_id = Some t3) by apply lookup_insert_eq.
  assert (Hr3 : status_rank t3 = Some 3%nat) by (subst t3; by rewrite status_rank_set).
  destruct (deliver task_id (emitted w) s3) as [[calls s4] r] eqn:Hd.
  destruct (deliver_ascending _ _ _ _ _ _ _ H3 Hr3 Hd)
    as (t4 & r4 & H4 & Hr4 & Hle & Hlast & Hasc).
  assert (Hpre : forall rest, ascending_from task_id r4 rest ->
                   ascending_from task_id 1 ([s1; s2; s3] ++ calls ++ rest)).
  { intros rest Hrest. simpl. exists 1%nat. rewrite H1. simpl.
    rewrite status_rank_set. repeat split; try done.
    exists 2%nat. rewrite H2. simpl. subst t2. rewrite status_rank_set.
    repeat split; [lia..|].
    exists 3%nat. rewrite H3. simpl. rewrite Hr3. repeat split; [lia..|].
    by apply Hasc. }
  assert (Hl3 : forall d, List.last ([s1; s2; s3] ++ calls) d = s4).
  { intros d. change ([s1; s2; s3] ++ calls)%list with (s1 :: s2 :: s3 :: calls).
    by rewrite !last_cons_default. }
  destruct (r ≫= _) as [[]|e].
  2:{ rewrite Hl3. pose proof (on_exception_rank e s4 _ H4) as Hx. split.
      - rewrite <- app_assoc. apply Hpre. simpl. exists 4%nat.
        rewrite Hx. repeat split; try done. by eapply status_rank_le4.
      - rewrite last_last.
        destruct (on_exception e task_id s4 !! task_id) as [t'|]; [|done]. eauto. }
  destruct (consistency_check _ _ _ _ s4) as [s5 r5] eqn:Hc.
  destruct (consistency_check_rank _ _ _ _ _ _ _ _ H4 Hr4 Hc) as (t5 & H5 & Hr5).
  assert (Hl5 : forall d, List.last ([s1; s2; s3] ++ calls ++ [s5]) d = s5).
  { intros d. by rewrite app_assoc, last_last. }
  destruct r5 as [[]|e].
  - split.
    + apply Hpre. simpl. exists 4%nat. rewrite H5. simpl.
      repeat split; try done. by eapply status_rank_le4.
    + rewrite Hl5. eauto.
  - rewrite Hl5. pose proof (on_exception_rank e s5 _ H5) as Hx. split.
    + rewrite <- !app_assoc. apply Hpre. simpl. exists 4%nat. rewrite H5. simpl.
      repeat split; try done; [by eapply status_rank_le4|].
      exists 4%nat. rewrite Hx. done.
    + rewrite last_last.
      destruct (on_exception e task_id s5 !! task_id) as [t'|]; [|done]. eauto.
Qed.

End RunnerFacts.

Section StreamInvariants.
Variable json_dumps : pyval -> result string.
Variable task_id : string.

(** What one poll can do. *)
Lemma poll_cases last (tasks : store) :
  exists out last' continue,
    poll json_dumps task_id last tasks = (out, last', continue)
    /\ (out = [] /\ last' = last
        \/ (exists j, out = [Data j] /\ last' = Some j /\ Some j <> last)
        \/ (exists e, out = [e] /\ is_data e = false /\ continue = false)).
Proof.
  unfold poll. destruct (tasks !! task_id) as [[|kv t]|].
  1,3: eexists _, _, _; split; [reflexivity|]; right; right; by exists NotFound.
  destruct (json_dumps _) as [j|e].
  - destruct (bool_decide_reflect (Some j = last)) as [<-|Hne]; simpl.
    + destruct (dict_getitem _ _); eexists _, _, _; split; try reflexivity; by left.
    + destruct (dict_getitem _ _); eexists _, _, _; split; try reflexivity;
        right; left; by exists j.
  - destruct e; eexists _, _, _; split; try reflexivity; try (by left).
    right; right. by exists SerializationError.
Qed.

Lemma poll_settled last (tasks : store) :
  settled task_id tasks = true ->
  (poll json_dumps task_id last tasks).2 = false.
Proof.
  unfold settled, poll. destruct (tasks !! task_id) as [[|kv t]|]; try done.
  unfold terminal, dict_getitem. intros Hfin.
  destruct (json_dumps _) as [j|e]; [|by destruct e].
  destruct (dict_lookup (kv :: t) "status") as [st|]; [|done].
  simpl. by rewrite Hfin.
Qed.

Lemma stream_closes_from polls : forall last,
  Exists (fun tasks => settled task_id tasks = true) polls ->
  (event_stream_from json_dumps task_id last polls).2 = true.
Proof.
  induction polls as [|tasks rest IH]; intros last Hex.
  - by apply Exists_nil in Hex.
  - simpl. destruct (poll json_dumps task_id last tasks) as [[out last'] c] eqn:Hp.
    destruct c; [|done].
    apply Exists_cons in Hex as [Hs|Hex].
    + apply (poll_settled last) in Hs. rewrite Hp in Hs. done.
    + specialize (IH last' Hex).
      by destruct (event_stream_from json_dumps task_id last' rest).
Qed.

Lemma stream_closed_prefix polls more : forall last,
  (event_stream_from json_dumps task_id last polls).2 = true ->
  event_stream_from json_dumps task_id last (polls ++ more)
  = event_stream_from json_dumps task_id last polls.
Proof.
  induction polls as [|tasks rest IH]; intros last; simpl; [done|].
  destruct (poll json_dumps task_id last tasks) as [[out last'] c].
  destruct c; [|done].
  specialize (IH last').
  destruct (event_stream_from json_dumps task_id last' rest) as [fr cl].
  simpl. intros ->. by rewrite IH.
Qed.

Lemma stream_fresh_from polls : forall last,
  fresh_chain last (payloads (event_stream_from json_dumps task_id last polls).1).
Proof.
  induction polls as [|tasks rest IH]; intros last; simpl; [done|].
  destruct (poll_cases last tasks) as (out & last' & c & -> & Hc).
  specialize (IH last').
  destruct (event_stream_from json_dumps task_id last' rest) as [fr cl].
  simpl in IH.
  destruct Hc as [[-> ->]|[(j & -> & -> & Hne)|(e & -> & He & ->)]].
  - destruct c; simpl; done.
  - destruct c; simpl; done.
  - destruct e; done.
Qed.

Lemma stream_length_from polls : forall last,
  (length (event_stream_from json_dumps task_id last polls).1 <= length polls)%nat.
Proof.
  induction polls as [|tasks rest IH]; intros last; simpl; [done|].
  destruct (poll_cases last tasks) as (out & last' & c & -> & Hc).
  specialize (IH last').
  destruct (event_stream_from json_dumps task_id last' rest) as [fr cl].
  simpl in IH.
  destruct Hc as [[-> ->]|[(j & -> & -> & Hne)|(e & -> & He & ->)]];
    try destruct c; simpl; lia.
Qed.

Lemma stream_error_last_from polls : forall last pre e post,
  (event_stream_from json_dumps task_id last polls).1 = (pre ++ e :: post)%list ->
  is_data e = false ->
  post = [] /\ (event_stream_from json_dumps task_id last polls).2 = true.
Proof.
  induction polls as [|tasks rest IH]; intros last pre e post; simpl.
  { by destruct pre. }
  destruct (poll_cases last tasks) as (out & last' & c & -> & Hc).
  specialize (IH last').
  destruct (event_stream_from json_dumps task_id last' rest) as [fr cl].
  simpl in IH.
  destruct Hc as [[-> ->]|[(j & -> & -> & Hne)|(e' & -> & He' & ->)]].
  - destruct c; simpl; [intros Hfr He; by apply (IH pre e post) | by destruct pre].
  - destruct c; simpl.
    + destruct pre as [|p pre]; simpl.
      * intros [= <- <-]. done.
      * intros [= <- Hfr] He. by apply (IH pre e post).
    + destruct pre as [|p [|? pre]]; simpl; try done.
      intros [= <- <-]. done.
  - simpl. destruct pre as [|p [|? pre]]; simpl; try done.
    intros [= <- <-]. done.
Qed.

End StreamInvariants.

(** Property X8.
    Once a poll finds the task settled (terminal, or no record), the
    generator has finished, whatever the serializer does and whatever the
    other polls find; and a finished generator yields nothing more, however
    many further polls one would grant it. *)
Theorem stream_ends_with_the_task (json_dumps : pyval -> result string)
    (task_id : string) (polls more : list store) :
  Exists (fun tasks => settled task_id tasks = true) polls ->
  (event_stream json_dumps task_id polls).2 = true
  /\ event_stream json_dumps task_id (polls ++ more) = event_stream json_dumps task_id polls.
Proof.
  intros Hex. unfold event_stream.
  pose proof (stream_closes_from json_dumps task_id polls None Hex) as Hc.
  split; [done|]. by apply stream_closed_prefix.
Qed.

Lemma stream_ends_with_the_task_witness :
  (event_stream json_dumps_lite "t1" [seeded; <["t1" := failed_record]> ∅]).2 = true
  /\ event_stream json_dumps_lite "t1" ([seeded; <["t1" := failed_record]> ∅] ++ [seeded])
     = event_stream json_dumps_lite "t1" [seeded; <["t1" := failed_record]> ∅].
Proof.
  apply (stream_ends_with_the_task json_dumps_lite "t1"
           [seeded; <["t1" := failed_record]> ∅] [seeded]).
  apply Exists_cons_tl, Exists_cons_hd. vm_compute. reflexivity.
Defined.

(** Property X9.
    The stream never sends the same serialization twice in a row, yields at
    most one frame per poll, and an error frame is the last frame of a
    finished stream. *)
Theorem stream_frames_are_fresh (json_dumps : pyval -> result string)
    (task_id : string) (polls : list store) :
  let '(frames, closed) := event_stream json_dumps task_id polls in
  fresh_chain None (payloads frames)
  /\ (length frames <= length polls)%nat
  /\ forall pre e post, frames = (pre ++ e :: post)%list -> is_data e = false ->
       post = [] /\ closed = true.
Proof.
  unfold event_stream.
  pose proof (stream_fresh_from json_dumps task_id polls None) as H1.
  pose proof (stream_length_from json_dumps task_id polls None) as H2.
  pose proof (stream_error_last_from json_dumps task_id polls None) as H3.
  destruct (event_stream_from json_dumps task_id None polls) as [frames closed].
  auto.
Qed.

Lemma Forall_last {A} (P : A -> Prop) (l : list A) (d : A) :
  Forall P l -> P d -> P (List.last l d).
Proof.
  intros Hl Hd. induction Hl as [|a l Ha Hl IH]; [done|].
  rewrite last_cons_default. clear IH. revert a Ha.
  induction Hl as [|b l Hb Hl IH]; intros a Ha; [done|].
  rewrite last_cons_default. by apply IH.
Qed.

Section RunnerIsolation.
Variable sanitize_filename : string -> string.
Variable py_str : pyval -> string.
Variable DOWNLOAD_FOLDER : string.
Variable task_id : string.

Lemma run_other selected_format w (tasks : store) other :
  other <> task_id ->
  Forall (fun s : store => s !! other = tasks !! other)
    (run_download_task sanitize_filename py_str DOWNLOAD_FOLDER
       task_id selected_format w tasks).
Proof.
  intros Hne. unfold run_download_task, try_block, locked.
  destruct (tasks !! task_id) as [t|]; [|constructor].
  set (s1 := <[task_id := dict_set t "status" (PStr "fetching_info")]> tasks).
  assert (O1 : s1 !! other = tasks !! other) by by apply lookup_insert_ne.
  destruct (extract_info w ≫= _) as [tf|e].
  2:{ simpl. repeat constructor; [done|]. by rewrite on_exception_other. }
  subst s1. rewrite lookup_insert_eq.
  set (s1 := <[task_id := dict_set t "status" (PStr "fetching_info")]> tasks) in *.
  set (t2 := dict_set (dict_set _ "filename" _) "status" (PStr "preparing_download")).
  set (s2 := <[task_id := t2]> s1).
  assert (O2 : s2 !! other = tasks !! other).
  { subst s2. by rewrite lookup_insert_ne. }
  assert (H2 : s2 !! task_id = Some t2) by apply lookup_insert_eq.
  rewrite H2.
  set (s3 := <[task_id := dict_set t2 "status" (PStr "downloading")]> s2).
  assert (O3 : s3 !! other = tasks !! other).
  { subst s3. by rewrite lookup_insert_ne. }
  destruct (deliver task_id (emitted w) s3) as [[calls s4] r] eqn:Hd.
  destruct (deliver_other task_id _ other Hne _ _ _ _ Hd) as [O4 Hcalls].
  assert (Hpre : Forall (fun s : store => s !! other = tasks !! other)
                   ([s1; s2; s3] ++ calls)).
  { apply Forall_app_2; [by repeat constructor|].
    eapply Forall_impl; [exact Hcalls|]. simpl. intros; congruence. }
  destruct (r ≫= _) as [[]|e].
  2:{ apply Forall_app_2; [done|]. repeat constructor.
      rewrite on_exception_other by done. by apply Forall_last. }
  pose proof (consistency_check_other task_id tf (path_join DOWNLOAD_FOLDER tf)
                (file_exists w) s4 other Hne) as O5.
  destruct (consistency_check _ _ _ _ s4) as [s5 r5]. simpl in O5.
  assert (Hall : Forall (fun s : store => s !! other = tasks !! other)
                   ([s1; s2; s3] ++ calls ++ [s5])).
  { rewrite app_assoc. apply Forall_app_2; [done|]. repeat constructor. congruence. }
  destruct r5 as [[]|e]; [done|].
  apply Forall_app_2; [done|]. repeat constructor.
  rewrite on_exception_other by done. by apply Forall_last.
Qed.

End RunnerIsolation.








(** ** Paths *)

Lemma append_cons x (a b : string) : String x a +:+ b = String x (a +:+ b).
Proof. reflexivity. Qed.

Lemma append_nil_l (b : string) : "" +:+ b = b.
Proof. reflexivity. Qed.

Lemma append_assoc (a b c : string) : (a +:+ b) +:+ c = a +:+ (b +:+ c).
Proof.
  induction a as [|x a IH]; [done|]. rewrite !append_cons. by f_equal.
Qed.

Lemma append_nil_r (a : string) : a +:+ "" = a.
Proof. induction a as [|x a IH]; [done|]. rewrite append_cons. by f_equal. Qed.

Lemma prefix_cons x y (a b : string) :
  String.prefix (String x a) (String y b)
  = if ascii_dec x y then String.prefix a b else false.
Proof. reflexivity. Qed.

Lemma prefix_nil (b : string) : String.prefix "" b = true.
Proof. by destruct b. Qed.

Lemma prefix_append (a b : string) : String.prefix a (a +:+ b) = true.
Proof.
  induction a as [|x a IH]; [apply prefix_nil|]. rewrite append_cons, prefix_cons.
  destruct (ascii_dec x x); [exact IH | done].
Qed.

Lemma prefix_append_both (p a b : string) :
  String.prefix (p +:+ a) (p +:+ b) = String.prefix a b.
Proof.
  induction p as [|x p IH]; [done|]. rewrite !append_cons, prefix_cons.
  destruct (ascii_dec x x); [exact IH | done].
Qed.

(** [s.startswith('/')] by the first character. *)
Lemma prefix_slash (s : string) :
  String.prefix "/" s = match s with String c _ => Ascii.eqb c "/" | "" => false end.
Proof.
  destruct s as [|c r]; [done|]. rewrite prefix_cons, prefix_nil.
  destruct (ascii_dec "/" c) as [<-|Hc]; [done|].
  symmetry. apply Ascii.eqb_neq. congruence.
Qed.

Lemma has_slash_prefix (name : string) :
  has_slash name = false -> String.prefix "/" name = false.
Proof.
  rewrite prefix_slash. destruct name as [|c r]; [done|].
  cbn [has_slash]. by intros [-> _]%orb_false_elim.
Qed.

(** The test of [os.path.join] for a trailing slash. *)
Lemma ends_slash_true (a : string) :
  String.eqb (String.substring (String.length a - 1) 1 a) "/" = true ->
  exists a0, a = a0 +:+ "/".
Proof.
  induction a as [|c r IH]; [done|].
  simpl. rewrite Nat.sub_0_r. destruct r as [|c' r'].
  - simpl. destruct (Ascii.eqb_spec c "/") as [->|]; [|done]. by exists "".
  - simpl in *. rewrite Nat.sub_0_r in IH. intros [a0 ->]%IH.
    by exists (String c a0).
Qed.

Lemma ends_slash_false (a : string) :
  String.eqb (String.substring (String.length a - 1) 1 a) "/" = false ->
  forall a0, a <> a0 +:+ "/".
Proof.
  induction a as [|c r IH]; [by intros _ []|].
  simpl. rewrite Nat.sub_0_r. destruct r as [|c' r'].
  - simpl. intros H [|x a0].
    + intros [= ->]. by rewrite Ascii.eqb_refl in H.
    + rewrite append_cons. intros [= _ E]. by destruct a0.
  - simpl in *. rewrite Nat.sub_0_r in IH. intros H [|x a0]; [done|].
    rewrite append_cons. intros [= _ E]. by apply (IH H a0).
Qed.

Lemma ends_slash_append (a b : string) :
  b <> "" -> (forall b0, b <> b0 +:+ "/") -> forall q, a +:+ b <> q +:+ "/".
Proof.
  intros Hb Hn. induction a as [|c a IH]; [done|].
  intros [|x q]; rewrite !append_cons.
  - intros [= _ E]. destruct a; [by destruct b | done].
  - intros [= _ E]. by apply (IH q).
Qed.

Lemma split_slash_nonempty (s : string) : split_slash s <> [].
Proof.
  destruct s as [|c r]; simpl; [done|].
  destruct (Ascii.eqb c "/"); [done|]. by destruct (split_slash r).
Qed.

Lemma split_slash_plain (name : string) :
  has_slash name = false -> split_slash name = [name].
Proof.
  induction name as [|c r IH]; simpl; [done|].
  destruct (Ascii.eqb c "/"); [done|]. simpl. intros H. by rewrite IH.
Qed.

Lemma split_slash_append (a b : string) :
  split_slash (a +:+ "/" +:+ b) = (split_slash a ++ split_slash b)%list.
Proof.
  induction a as [|c a IH]; [done|]. rewrite append_cons. simpl.
  destruct (Ascii.eqb c "/"); rewrite IH; [done|].
  pose proof (split_slash_nonempty a). by destruct (split_slash a).
Qed.

Lemma join_slash_snoc (comps : list string) (name : string) :
  join_slash (comps ++ [name])
  = match comps with [] => name | _ => join_slash comps +:+ "/" +:+ name end.
Proof.
  induction comps as [|c comps IH]; [done|].
  destruct comps as [|c' comps]; [done|].
  change (join_slash ((c :: c' :: comps) ++ [name]))
    with (c +:+ "/" +:+ join_slash ((c' :: comps) ++ [name])).
  rewrite IH.
  change (join_slash (c :: c' :: comps)) with (c +:+ "/" +:+ join_slash (c' :: comps)).
  by rewrite !append_assoc.
Qed.

Lemma prefix_slash2 (s : string) :
  String.prefix "//" s
  = match s with
    | String a (String b _) => Ascii.eqb a "/" && Ascii.eqb b "/"
    | _ => false
    end.
Proof.
  destruct s as [|a r]; [done|].
  change (String.prefix "//" (String a r))
    with (if ascii_dec "/" a then String.prefix "/" r else false).
  rewrite prefix_slash.
  destruct (ascii_dec "/" a) as [<-|Ha].
  - by destruct r.
  - assert (Ascii.eqb a "/" = false) as -> by (apply Ascii.eqb_neq; congruence).
    by destruct r.
Qed.

Lemma prefix_slash3 (s : string) :
  String.prefix "///" s
  = match s with
    | String a (String b (String c _)) =>
        Ascii.eqb a "/" && Ascii.eqb b "/" && Ascii.eqb c "/"
    | _ => false
    end.
Proof.
  destruct s as [|a r]; [done|].
  change (String.prefix "///" (String a r))
    with (if ascii_dec "/" a then String.prefix "//" r else false).
  rewrite prefix_slash2.
  destruct (ascii_dec "/" a) as [<-|Ha].
  - destruct r as [|b [|c r]]; try done; simpl; by rewrite ?andb_false_r.
  - assert (Ascii.eqb a "/" = false) as -> by (apply Ascii.eqb_neq; congruence).
    by destruct r as [|b [|c r]].
Qed.

(** [normpath] of an absolute path, its branches resolved. *)
Lemma normpath_abs (Q : string) :
  String.prefix "/" Q = true ->
  let two := String.prefix "//" Q && negb (String.prefix "///" Q) in
  normpath Q
  = (if two then "//" else "/")
    +:+ join_slash
          (List.fold_left (norm_step (if two then 2 else 1)%nat) (split_slash Q) []).
Proof.
  intros HQ two. unfold normpath. rewrite HQ. fold two.
  destruct Q as [|c Q]; [done|].
  change (String.eqb (String c Q) "") with false. cbv iota.
  destruct two; reflexivity.
Qed.

(** Appending a component changes neither the leading slash nor the count
    of initial slashes. *)
Lemma slashes_same (Q x : string) :
  String.prefix "/" Q = true ->
  (if String.eqb (String.substring (String.length Q - 1) 1 Q) "/"
   then String.prefix "/" x = false else True) ->
  String.prefix "/" (Q +:+ x) = true
  /\ String.prefix "//" (Q +:+ x) && negb (String.prefix "///" (Q +:+ x))
     = String.prefix "//" Q && negb (String.prefix "///" Q).
Proof.
  rewrite !prefix_slash2, !prefix_slash3, !(prefix_slash Q), !(prefix_slash (Q +:+ x)).
  destruct Q as [|c1 Q]; [done|]. rewrite append_cons.
  intros Hc1 He. split; [done|].
  destruct Q as [|c2 Q].
  { simpl in He. rewrite Hc1 in He. simpl in He.
    rewrite append_nil_l. rewrite prefix_slash in He.
    destruct x as [|x1 x]; [done|]. rewrite He.
    destruct (Ascii.eqb c1 "/"); reflexivity. }
  rewrite append_cons.
  destruct Q as [|c3 Q].
  { rewrite append_nil_l. simpl in He.
    destruct (Ascii.eqb c2 "/") eqn:E2; simpl in He.
    - rewrite prefix_slash in He. destruct x as [|x1 x]; [done|]. rewrite He.
      destruct (Ascii.eqb c1 "/"); reflexivity.
    - destruct (Ascii.eqb c1 "/"); reflexivity. }
  by rewrite append_cons.
Qed.

Lemma norm_step_empty n (comps : list string) : norm_step n comps "" = comps.
Proof. reflexivity. Qed.

Lemma norm_step_name n (comps : list string) (name : string) :
  name <> ".." ->
  norm_step n comps name = comps \/ norm_step n comps name = (comps ++ [name])%list.
Proof.
  intros Hn. unfold norm_step.
  destruct (_ || _); [by left|].
  destruct (String.eqb_spec name ".."); [done|]. by right.
Qed.

Lemma prefix_join_snoc (comps : list string) (name : string) :
  String.prefix (join_slash comps) (join_slash (comps ++ [name])) = true.
Proof.
  rewrite join_slash_snoc. destruct comps as [|c comps]; [apply prefix_nil|].
  apply prefix_append.
Qed.

Lemma prefix_refl (a : string) : String.prefix a a = true.
Proof. rewrite <- (append_nil_r a) at 2. apply prefix_append. Qed.

(** What [os.path.join] makes of an absolute folder and a plain name stays
    under the folder after [normpath]. *)
Lemma normpath_extend (Q name : string) :
  String.prefix "/" Q = true -> has_slash name = false -> name <> ".." ->
  String.prefix (normpath Q)
    (normpath (if ends_with_slash Q then Q +:+ name else Q +:+ "/" +:+ name)) = true.
Proof.
  intros HQ Hname Hdd. unfold ends_with_slash.
  pose proof (has_slash_prefix name Hname) as Hpre.
  set (e := String.eqb _ "/").
  set (x := if e then name else "/" +:+ name).
  assert (Hx : (if e then Q +:+ name else Q +:+ "/" +:+ name) = Q +:+ x)
    by (subst x; by destruct e).
  rewrite Hx.
  destruct (slashes_same Q x HQ) as [HQ' Htwo].
  { fold e. subst x. by destruct e. }
  rewrite (normpath_abs Q HQ), (normpath_abs (Q +:+ x) HQ'). cbv zeta.
  rewrite Htwo. set (two := _ && _). set (n := (if two then 2 else 1)%nat).
  rewrite prefix_append_both.
  assert (Hsplit : exists pre last,
            split_slash Q = (pre ++ [last])%list
            /\ norm_step n (List.fold_left (norm_step n) pre []) last
               = List.fold_left (norm_step n) (split_slash Q) []
            /\ (split_slash (Q +:+ x) = (split_slash Q ++ [name])%list
                \/ last = "" /\ split_slash (Q +:+ x) = (pre ++ [name])%list)).
  { pose proof (split_slash_nonempty Q) as Hne.
    destruct (exists_last Hne) as (pre & last & Hpl).
    exists pre, last. split; [done|]. split.
    { by rewrite Hpl, fold_left_app. }
    subst x. destruct e eqn:He.
    - right. apply ends_slash_true in He as [Q0 ->].
      rewrite append_assoc, split_slash_append, (split_slash_plain name) by done.
      change (Q0 +:+ "/") with (Q0 +:+ "/" +:+ "") in Hpl.
      rewrite split_slash_append in Hpl. simpl in Hpl.
      apply app_inj_tail in Hpl as [-> <-]. done.
    - left. by rewrite split_slash_append, (split_slash_plain name). }
  destruct Hsplit as (pre & last & Hpl & Hfold & [Hs | [-> Hs]]).
  - rewrite Hs, fold_left_app. simpl.
    destruct (norm_step_name n (List.fold_left (norm_step n) (split_slash Q) []) name Hdd)
      as [-> | ->]; [apply prefix_refl | apply prefix_join_snoc].
  - rewrite Hs, Hpl, !fold_left_app. simpl. rewrite norm_step_empty.
    destruct (norm_step_name n (List.fold_left (norm_step n) pre []) name Hdd)
      as [-> | ->]; [apply prefix_refl | apply prefix_join_snoc].
Qed.

Lemma ends_with_slash_append_slash (a : string) : ends_with_slash (a +:+ "/") = true.
Proof.
  destruct (ends_with_slash (a +:+ "/")) eqn:E; [done|].
  by destruct (ends_slash_false _ E a).
Qed.

Lemma ends_with_slash_append (a b : string) :
  b <> "" -> ends_with_slash (a +:+ b) = ends_with_slash b.
Proof.
  intros Hb. destruct (ends_with_slash b) eqn:E.
  - apply ends_slash_true in E as [b0 ->].
    rewrite <- append_assoc. apply ends_with_slash_append_slash.
  - pose proof (ends_slash_append a b Hb (ends_slash_false b E)) as Hn.
    destruct (ends_with_slash (a +:+ b)) eqn:E'; [|done].
    apply ends_slash_true in E' as [q Hq]. by destruct (Hn q).
Qed.

Lemma prefix_slash_append (a b : string) :
  String.prefix "/" a = true -> String.prefix "/" (a +:+ b) = true.
Proof. rewrite !prefix_slash. by destruct a. Qed.

Lemma path_join_relative (a b : string) :
  String.prefix "/" b = false ->
  path_join a b
  = if String.eqb a "" || ends_with_slash a then a +:+ b else a +:+ "/" +:+ b.
Proof. intros Hb. unfold path_join. by rewrite Hb. Qed.

Lemma escapes_plain (cwd DOWNLOAD_FOLDER name : string) :
  String.prefix "/" cwd = true -> has_slash name = false -> name <> ".." ->
  escapes cwd DOWNLOAD_FOLDER name = false.
Proof.
  intros Hcwd Hname Hdd.
  pose proof (has_slash_prefix name Hname) as Hpre.
  assert (Hcwd0 : String.eqb cwd "" = false) by by destruct cwd.
  unfold escapes, abspath. apply negb_false_iff.
  pose proof normpath_extend as Hext.
  destruct DOWNLOAD_FOLDER as [|c F].
  - change (path_join "" name) with (if String.prefix "/" name then name else name).
    rewrite Hpre. change (String.prefix "/" "") with false. rewrite Hpre. cbv iota.
    rewrite !path_join_relative, Hcwd0 by done. simpl orb.
    destruct (ends_with_slash cwd) eqn:E.
    + rewrite append_nil_r. specialize (Hext cwd name Hcwd Hname Hdd).
      by rewrite E in Hext.
    + specialize (Hext (cwd +:+ "/") name (prefix_slash_append _ _ Hcwd) Hname Hdd).
      rewrite ends_with_slash_append_slash, append_assoc in Hext. exact Hext.
  - set (F' := String c F).
    assert (HF0 : String.eqb F' "" = false) by done.
    assert (HJ : path_join F' name
                 = F' +:+ (if ends_with_slash F' then name else "/" +:+ name)).
    { rewrite path_join_relative, HF0 by done. simpl orb. by destruct (ends_with_slash F'). }
    assert (HJp : String.prefix "/" (path_join F' name) = String.prefix "/" F').
    { rewrite HJ, !prefix_slash. done. }
    rewrite HJp. destruct (String.prefix "/" F') eqn:HF.
    + specialize (Hext F' name HF Hname Hdd). rewrite HJ.
      by destruct (ends_with_slash F').
    + rewrite HJ in HJp. rewrite HJ.
      rewrite (path_join_relative cwd F'), (path_join_relative cwd (F' +:+ _)), Hcwd0
        by done.
      simpl orb.
      set (X := if ends_with_slash cwd then cwd else cwd +:+ "/").
      assert (HX : String.prefix "/" X = true).
      { subst X. destruct (ends_with_slash cwd); [done|]. by apply prefix_slash_append. }
      assert (HQ : (if ends_with_slash cwd then cwd +:+ F' else cwd +:+ "/" +:+ F')
                   = X +:+ F').
      { subst X. destruct (ends_with_slash cwd); [done|]. by rewrite append_assoc. }
      assert (HQ' : forall y,
                (if ends_with_slash cwd then cwd +:+ F' +:+ y
                 else cwd +:+ "/" +:+ F' +:+ y) = (X +:+ F') +:+ y).
      { intros y. subst X. destruct (ends_with_slash cwd);
          by rewrite ?append_assoc. }
      rewrite HQ, HQ'.
      specialize (Hext (X +:+ F') name (prefix_slash_append _ _ HX) Hname Hdd).
      rewrite ends_with_slash_append in Hext by done.
      by destruct (ends_with_slash F').
Qed.

(** ** Serving a file by its plain name *)

(** Property X14.
    With an absolute working directory, a request for a name without a
    slash, other than the parent segment, always passes the folder check,
    whatever the configured folder: the reply is what
    [send_from_directory] gives, a missing file becomes 404 with its
    message and any other exception 500. *)
Theorem plain_name_is_never_rejected (served : Type)
    (send_from_directory : string -> string -> result served)
    (cwd DOWNLOAD_FOLDER name : string) :
  String.prefix "/" cwd = true -> has_slash name = false -> name <> ".." ->
  escapes cwd DOWNLOAD_FOLDER name = false
  /\ get_file send_from_directory cwd DOWNLOAD_FOLDER name
     = match send_from_directory DOWNLOAD_FOLDER name with
       | Ok r => Ok r
       | Raise FileNotFoundError => Raise (HTTPException 404 file_missing_message)
       | Raise _ => Raise (HTTPException 500 file_error_message)
       end.
Proof.
  intros Hcwd Hname Hdd.
  pose proof (escapes_plain cwd DOWNLOAD_FOLDER name Hcwd Hname Hdd) as He.
  split; [done|]. unfold escapes in He. unfold get_file, get_file_try.
  by rewrite He.
Qed.

Lemma plain_name_is_never_rejected_witness :
  escapes "/srv/app" "downloads" "clip.mp4" = false
  /\ get_file (fun _ _ => Raise FileNotFoundError) "/srv/app" "downloads" "clip.mp4"
     = match (Raise FileNotFoundError : result unit) with
       | Ok r => Ok r
       | Raise FileNotFoundError => Raise (HTTPException 404 file_missing_message)
       | Raise _ => Raise (HTTPException 500 file_error_message)
       end.
Proof.
  apply (plain_name_is_never_rejected unit (fun _ _ => Raise FileNotFoundError)
           "/srv/app" "downloads" "clip.mp4"); [reflexivity | reflexivity | discriminate].
Defined.

(** ** [os.path.basename] *)

(** Property X15.
    [basename] cuts a path after its last slash: the path is a directory
    part, empty or ending in a slash, followed by the base name, and the
    base name holds no slash. *)
Theorem basename_is_last_component (s : string) :
  has_slash (basename s) = false
  /\ exists dir, s = dir +:+ basename s
       /\ (dir = "" \/ exists d, dir = d +:+ "/").
Proof.
  induction s as [|c r [IH1 (dir & IH2 & IH3)]]; simpl.
  { split; [done|]. exists "". auto. }
  destruct (Ascii.eqb_spec c "/") as [->|Hc]; simpl.
  - split; [done|]. exists (String "/" dir). split.
    + rewrite append_cons. by f_equal.
    + right. destruct IH3 as [->|[d ->]]; [by exists "" | by exists (String "/" d)].
  - destruct (has_slash r) eqn:Hr.
    + split; [done|]. exists (String c dir). split.
      * rewrite append_cons. by f_equal.
      * right. destruct IH3 as [->|[d ->]]; [|by exists (String c d)].
        rewrite append_nil_l in IH2. rewrite <- IH2 in IH1. congruence.
    + split.
      * simpl. rewrite Hr. by destruct (Ascii.eqb_spec c "/").
      * exists "". auto.
Qed.
